(** * Checkpoint resolution and batch-kwargs validation of great_expectations

    A shallow embedding of
      - [great_expectations/datasource/types/batch_kwargs.py]
        (the [BatchMarkers] and [BatchKwargs] class family), and
      - [great_expectations/cli/checkpoint.py]
        ([checkpoint_list], [checkpoint_run], [_exit_with_failure_message]),
    followed by the properties established about them. *)

From Stdlib Require Import String Ascii List ZArith Bool Lia.
From Stdlib Require Import Permutation Sorted DecimalString.
Import ListNotations.
Open Scope string_scope.

Set Warnings "-register-all".

(* ================================================================== *)
(** ** Python values, exceptions and results *)

(** The run-time values that flow through the two modules.  An object of a
    class defined elsewhere (a pandas or spark frame, a loaded data asset) is
    [VObject mro ident]: [mro] lists the qualified names of its class and of
    every base class, [ident] tells two objects apart. *)
Inductive value : Type :=
| VNone
| VBool (b : bool)
| VInt (z : Z)
| VStr (s : string)
| VList (l : list value)
| VDict (items : list (string * value))
| VObject (mro : list string) (ident : nat).

(** The exception classes the two modules raise or catch. *)
Inductive exc_class : Type :=
| InvalidBatchKwargsError
| InvalidBatchIdError
| CheckpointNotFoundError
| CheckpointError
| DataContextError
| ImportError
| KeyError
| TypeError
| OtherError (name : string).

(** A raised exception: an instance of a class with its message, or the
    [SystemExit] that [sys.exit(code)] raises. *)
Inductive exn : Type :=
| Exception (cls : exc_class) (msg : string)
| SystemExit (code : Z).

Inductive result (A : Type) : Type :=
| Ok (a : A)
| Raise (e : exn).
Arguments Ok {A} a.
Arguments Raise {A} e.

Definition rbind {A B} (r : result A) (k : A -> result B) : result B :=
  match r with
  | Ok a => k a
  | Raise e => Raise e
  end.

Declare Scope result_scope.
Delimit Scope result_scope with result.
Notation "'let*' x ':=' r 'in' k" := (rbind r (fun x => k))
  (at level 10, x name, r at level 100, k at level 200) : result_scope.

(** [type(v).__mro__], by qualified class name. *)
Definition type_mro (v : value) : list string :=
  match v with
  | VNone => ["NoneType"; "object"]
  | VBool _ => ["bool"; "int"; "object"]
  | VInt _ => ["int"; "object"]
  | VStr _ => ["str"; "object"]
  | VList _ => ["list"; "object"]
  | VDict _ => ["dict"; "object"]
  | VObject mro _ => mro
  end.

(** [isinstance(v, cls)]. *)
Definition isinstance (v : value) (cls : string) : bool :=
  existsb (String.eqb cls) (type_mro v).

Definition pd_DataFrame : string := "pandas.core.frame.DataFrame".
Definition pyspark_sql_DataFrame : string := "pyspark.sql.dataframe.DataFrame".

(* ================================================================== *)
(** ** The built-in [dict]

    Keys are strings; the items are kept in insertion order, one item per
    key. *)
Module Dict.

Definition t : Type := list (string * value).

Definition keys (d : t) : list string := map fst d.

(** [d.get(k)] before the default is applied. *)
Fixpoint lookup (d : t) (k : string) : option value :=
  match d with
  | [] => None
  | (k', v) :: rest => if String.eqb k' k then Some v else lookup rest k
  end.

(** [k in d]. *)
Definition contains (d : t) (k : string) : bool :=
  match lookup d k with
  | Some _ => true
  | None => false
  end.

(** [d.get(k)]: the value stored under [k], [None] when there is none. *)
Definition get (d : t) (k : string) : value :=
  match lookup d k with
  | Some v => v
  | None => VNone
  end.

(** [d[k]]. *)
Definition getitem (d : t) (k : string) : result value :=
  match lookup d k with
  | Some v => Ok v
  | None => Raise (Exception KeyError k)
  end.

(** [d[k] = v]: an existing key keeps its place, a new key goes last. *)
Fixpoint setitem (d : t) (k : string) (v : value) : t :=
  match d with
  | [] => [(k, v)]
  | (k', v') :: rest =>
      if String.eqb k' k then (k', v) :: rest
      else (k', v') :: setitem rest k v
  end.

(** [d.update(items)]. *)
Definition update (d : t) (items : list (string * value)) : t :=
  fold_left (fun acc kv => setitem acc (fst kv) (snd kv)) items d.

(** [dict(mapping, **kwargs)]. *)
Definition init (mapping kwargs : list (string * value)) : t :=
  update (update [] mapping) kwargs.

(** No key occurs twice. *)
Definition wf (d : t) : Prop := NoDup (keys d).

End Dict.

(** The value a sequence of insertions leaves under [k]: the last one
    inserted wins. *)
Fixpoint assoc_last (items : list (string * value)) (k : string)
  : option value :=
  match items with
  | [] => None
  | (k', v) :: rest =>
      match assoc_last rest k with
      | Some w => Some w
      | None => if String.eqb k' k then Some v else None
      end
  end.

(** What [.get(k)] must answer on a mapping built from [items]. *)
Definition stored (items : list (string * value)) (k : string) : value :=
  match assoc_last items k with
  | Some v => v
  | None => VNone
  end.

Definition has_key (items : list (string * value)) (k : string) : Prop :=
  In k (map fst items).

(* ================================================================== *)
(** ** [great_expectations/datasource/types/batch_kwargs.py] *)

(** Modelled from the spec: the base class [BatchKwargs] of
    [great_expectations.core.id_dict] is not among the sources.  The spec
    gives it as an ordered mapping from string key to arbitrary value whose
    construction has the interface of a generic dictionary, so its
    [__init__] is [dict]'s. *)
Module BatchKwargs.
Definition __init__ (mapping kwargs : list (string * value)) : Dict.t :=
  Dict.init mapping kwargs.
End BatchKwargs.

Module BatchMarkers.
Definition __init__ (mapping kwargs : list (string * value))
  : result Dict.t :=
  let self := BatchKwargs.__init__ mapping kwargs in
  if negb (Dict.contains self "ge_load_time") then
    Raise (Exception InvalidBatchIdError "BatchMarkers requires a ge_load_time")
  else Ok self.

Definition ge_load_time (self : Dict.t) : value := Dict.get self "ge_load_time".
End BatchMarkers.

(** The three abstract bases add nothing to construction. *)
Module PandasDatasourceBatchKwargs.
Definition __init__ := BatchKwargs.__init__.
End PandasDatasourceBatchKwargs.

Module SparkDFDatasourceBatchKwargs.
Definition __init__ := BatchKwargs.__init__.
End SparkDFDatasourceBatchKwargs.

Module SqlAlchemyDatasourceBatchKwargs.
Definition __init__ := BatchKwargs.__init__.
Definition limit (self : Dict.t) : value := Dict.get self "limit".
Definition schema (self : Dict.t) : value := Dict.get self "schema".
End SqlAlchemyDatasourceBatchKwargs.

Module PathBatchKwargs.
Definition __init__ (mapping kwargs : list (string * value))
  : result Dict.t :=
  let self := PandasDatasourceBatchKwargs.__init__ mapping kwargs in
  if negb (Dict.contains self "path") then
    Raise (Exception InvalidBatchKwargsError
             "PathBatchKwargs requires a path element")
  else Ok self.

Definition path (self : Dict.t) : value := Dict.get self "path".
Definition reader_method (self : Dict.t) : value :=
  Dict.get self "reader_method".
End PathBatchKwargs.

Module S3BatchKwargs.
Definition __init__ (mapping kwargs : list (string * value))
  : result Dict.t :=
  let self := PandasDatasourceBatchKwargs.__init__ mapping kwargs in
  if negb (Dict.contains self "s3") then
    Raise (Exception InvalidBatchKwargsError
             "S3BatchKwargs requires a path element")
  else Ok self.

Definition s3 (self : Dict.t) : value := Dict.get self "s3".
Definition reader_method (self : Dict.t) : value :=
  Dict.get self "reader_method".
End S3BatchKwargs.

Module InMemoryBatchKwargs.
Definition __init__ (mapping kwargs : list (string * value))
  : result Dict.t :=
  let self := PandasDatasourceBatchKwargs.__init__ mapping kwargs in
  if negb (Dict.contains self "dataset") then
    Raise (Exception InvalidBatchKwargsError
             "InMemoryBatchKwargs requires a 'dataset' element")
  else Ok self.

Definition dataset (self : Dict.t) : value := Dict.get self "dataset".
End InMemoryBatchKwargs.

(** What the interpreter can import.  pandas is a requirement of the
    package and its import is not guarded in the source; pyspark is
    optional and its import is. *)
Record environment : Type := { pyspark_importable : bool }.

(** [import pyspark]. *)
Definition import_pyspark (env : environment) : result unit :=
  if pyspark_importable env then Ok tt
  else Raise (Exception ImportError "No module named 'pyspark'").

Module PandasDatasourceInMemoryBatchKwargs.
Definition __init__ (mapping kwargs : list (string * value))
  : result Dict.t :=
  (let* self := InMemoryBatchKwargs.__init__ mapping kwargs in
   let* dataset := Dict.getitem self "dataset" in
   if negb (isinstance dataset pd_DataFrame) then
     Raise (Exception InvalidBatchKwargsError
              "PandasDatasourceInMemoryBatchKwargs 'dataset' must be a pandas DataFrame")
   else Ok self)%result.
End PandasDatasourceInMemoryBatchKwargs.

Module SparkDFDatasourceInMemoryBatchKwargs.
Definition __init__ (env : environment)
  (mapping kwargs : list (string * value)) : result Dict.t :=
  (let* self := InMemoryBatchKwargs.__init__ mapping kwargs in
   let* _ :=
     match import_pyspark env with
     | Raise (Exception ImportError _) =>
         Raise (Exception InvalidBatchKwargsError
                  "SparkDFDatasourceInMemoryBatchKwargs requires a valid pyspark installation, but pyspark import failed.")
     | r => r
     end in
   let* dataset := Dict.getitem self "dataset" in
   if negb (isinstance dataset pyspark_sql_DataFrame) then
     Raise (Exception InvalidBatchKwargsError
              "SparkDFDatasourceInMemoryBatchKwargs 'dataset' must be a spark DataFrame")
   else Ok self)%result.
End SparkDFDatasourceInMemoryBatchKwargs.

Module SqlAlchemyDatasourceTableBatchKwargs.
Definition __init__ (mapping kwargs : list (string * value))
  : result Dict.t :=
  let self := SqlAlchemyDatasourceBatchKwargs.__init__ mapping kwargs in
  if negb (Dict.contains self "table") then
    Raise (Exception InvalidBatchKwargsError
             "SqlAlchemyDatasourceTableBatchKwargs requires a 'table' element")
  else Ok self.

Definition table (self : Dict.t) : value := Dict.get self "table".
Definition limit := SqlAlchemyDatasourceBatchKwargs.limit.
Definition schema := SqlAlchemyDatasourceBatchKwargs.schema.
End SqlAlchemyDatasourceTableBatchKwargs.

Module SqlAlchemyDatasourceQueryBatchKwargs.
Definition __init__ (mapping kwargs : list (string * value))
  : result Dict.t :=
  let self := SqlAlchemyDatasourceBatchKwargs.__init__ mapping kwargs in
  if negb (Dict.contains self "query") then
    Raise (Exception InvalidBatchKwargsError
             "SqlAlchemyDatasourceQueryBatchKwargs requires a 'query' element")
  else Ok self.

Definition query (self : Dict.t) : value := Dict.get self "query".
Definition query_parameters (self : Dict.t) : value :=
  Dict.get self "query_parameters".
Definition limit := SqlAlchemyDatasourceBatchKwargs.limit.
Definition schema := SqlAlchemyDatasourceBatchKwargs.schema.
End SqlAlchemyDatasourceQueryBatchKwargs.

Module SparkDFDatasourceQueryBatchKwargs.
Definition __init__ (mapping kwargs : list (string * value))
  : result Dict.t :=
  let self := SparkDFDatasourceBatchKwargs.__init__ mapping kwargs in
  if negb (Dict.contains self "query") then
    Raise (Exception InvalidBatchKwargsError
             "SparkDFDatasourceQueryBatchKwargs requires a 'query' element")
  else Ok self.

Definition query (self : Dict.t) : value := Dict.get self "query".
End SparkDFDatasourceQueryBatchKwargs.

(* ================================================================== *)
(** ** The batch-kwargs fingerprint *)

(** Modelled from the spec: the fingerprint of a [BatchKwargs] is computed in
    [great_expectations.core.id_dict], which is not among the sources.  The
    spec gives it as a deterministic, content-based identifier derived from
    the mapping's key/value content, independent of ordering: a digest of the
    items taken in the order of their keys.  The digest itself is a
    parameter. *)
Module IDDict.

Fixpoint insert_by_key (kv : string * value) (l : list (string * value))
  : list (string * value) :=
  match l with
  | [] => [kv]
  | h :: t =>
      if String.leb (fst kv) (fst h) then kv :: h :: t
      else h :: insert_by_key kv t
  end.

Definition sort_keys (d : Dict.t) : list (string * value) :=
  fold_right insert_by_key [] d.

Definition to_id (digest : list (string * value) -> string) (self : Dict.t)
  : string :=
  digest (sort_keys self).

End IDDict.

(* ================================================================== *)
(** ** What a command does: its trace and its outcome *)

(** The calls a command makes to the outside, in order. *)
Inductive event : Type :=
| cli_message_ev (message : string)
| cli_message_list_ev (items : list string) (list_intro_string : string)
| usage_message_ev (event_name : string) (success : bool)
| load_batch_ev (suite batch_kwargs : value)
| run_validation_operator_ev (validation_operator_name : value)
    (assets_to_validate : list value).

(** A computation: the events it produced and how it ended. *)
Definition M (A : Type) : Type := (list event * result A)%type.

Definition ret {A} (a : A) : M A := ([], Ok a).

Definition bind {A B} (m : M A) (k : A -> M B) : M B :=
  match m with
  | (t, Ok a) => let (t', r) := k a in ((t ++ t')%list, r)
  | (t, Raise e) => (t, Raise e)
  end.

Definition raise {A} (e : exn) : M A := ([], Raise e).
Definition tell (ev : event) : M unit := ([ev], Ok tt).
Definition lift {A} (r : result A) : M A := ([], r).

(** [t] happened before [m] started. *)
Definition after {A} (t : list event) (m : M A) : M A :=
  ((t ++ fst m)%list, snd m).

Declare Scope cmd_scope.
Delimit Scope cmd_scope with cmd.
Notation "x <- m ;; k" := (bind m (fun x => k))
  (at level 61, m at next level, right associativity) : cmd_scope.
Notation "m ;; k" := (bind m (fun _ => k))
  (at level 61, right associativity) : cmd_scope.

(** [cli_message], [cli_message_list], [send_usage_message] and [sys.exit]:
    the first three are recorded in the trace, the last raises
    [SystemExit]. *)
Definition cli_message (message : string) : M unit :=
  tell (cli_message_ev message).
Definition cli_message_list (items : list string) (list_intro_string : string)
  : M unit :=
  tell (cli_message_list_ev items list_intro_string).
Definition sys_exit {A} (code : Z) : M A := raise (SystemExit code).

Definition exc_class_eq_dec (a b : exc_class) : {a = b} + {a <> b}.
Proof. decide equality. apply string_dec. Defined.

(** [str(e)]. *)
Definition str_exn (e : exn) : string :=
  match e with
  | Exception _ msg => msg
  | SystemExit _ => ""
  end.

(** The status the process ends with: the code of a [SystemExit], 0 on a
    normal return, 1 when an exception reaches the top uncaught. *)
Definition exit_status {A} (r : result A) : Z :=
  match r with
  | Ok _ => 0
  | Raise (SystemExit code) => code
  | Raise (Exception _ _) => 1
  end.

(** The project context, by the methods the commands call on it. *)
Record DataContext : Type := {
  get_checkpoint : string -> M value;
  list_checkpoints : M (list string);
  run_validation_operator : value -> list value -> M value
}.

Definition send_usage_message (context : DataContext) (event_name : string)
  (success : bool) : M unit :=
  tell (usage_message_ev event_name success).

(** The usage events of a trace. *)
Definition usage_events (t : list event) : list event :=
  filter (fun ev => match ev with usage_message_ev _ _ => true | _ => false end) t.


(** The [(suite, batch_kwargs)] pairs [load_batch] was called with. *)
Definition load_batch_calls (t : list event) : list (value * value) :=
  flat_map (fun ev => match ev with load_batch_ev s kw => [(s, kw)] | _ => [] end) t.

(* ================================================================== *)
(** ** [great_expectations/cli/checkpoint.py] *)

Section CLI.

(** What the module imports and the sources do not hold. *)

(** The proper-subclass relation of [great_expectations.exceptions]. *)
Variable exc_subclass : exc_class -> exc_class -> bool.
(** [great_expectations.cli.util]. *)
Variable load_data_context_with_error_handling : option string -> M DataContext.
Variable load_expectation_suite : DataContext -> value -> M value.
(** [great_expectations.cli.toolkit.load_batch]. *)
Variable toolkit_load_batch : DataContext -> value -> value -> M value.
(** [obj[key]], [iter(obj)] and [bool(obj)] on objects of outside classes. *)
Variable obj_getitem : value -> string -> result value.
Variable obj_iter : value -> result (list value).
Variable obj_truthy : value -> bool.

(** [except cls:] catches [e]. *)
Definition exn_matches (e : exn) (cls : exc_class) : bool :=
  match e with
  | Exception c _ =>
      if exc_class_eq_dec c cls then true else exc_subclass c cls
  | SystemExit _ => false
  end.

(** [try: body / except cls_1 as e: h_1 e / except cls_2 as e: h_2 e ...]:
    the first clause that matches handles the exception. *)
Fixpoint handle {A} (t : list event) (e : exn)
  (handlers : list (exc_class * (exn -> M A))) : M A :=
  match handlers with
  | [] => (t, Raise e)
  | (cls, h) :: rest =>
      if exn_matches e cls then after t (h e) else handle t e rest
  end.

Definition try_except {A} (body : M A)
  (handlers : list (exc_class * (exn -> M A))) : M A :=
  match body with
  | (t, Raise e) => handle t e handlers
  | (t, Ok a) => (t, Ok a)
  end.

(** [v[key]] for a string key. *)
Definition getitem (v : value) (key : string) : result value :=
  match v with
  | VDict items => Dict.getitem items key
  | VObject _ _ => obj_getitem v key
  | VList _ =>
      Raise (Exception TypeError "list indices must be integers or slices, not str")
  | VStr _ => Raise (Exception TypeError "string indices must be integers")
  | VNone => Raise (Exception TypeError "'NoneType' object is not subscriptable")
  | VBool _ => Raise (Exception TypeError "'bool' object is not subscriptable")
  | VInt _ => Raise (Exception TypeError "'int' object is not subscriptable")
  end.

Fixpoint chars (s : string) : list value :=
  match s with
  | EmptyString => []
  | String c rest => VStr (String c EmptyString) :: chars rest
  end.

(** The elements [for x in v] runs through. *)
Definition iter (v : value) : result (list value) :=
  match v with
  | VList l => Ok l
  | VDict items => Ok (map VStr (Dict.keys items))
  | VStr s => Ok (chars s)
  | VObject _ _ => obj_iter v
  | VNone => Raise (Exception TypeError "'NoneType' object is not iterable")
  | VBool _ => Raise (Exception TypeError "'bool' object is not iterable")
  | VInt _ => Raise (Exception TypeError "'int' object is not iterable")
  end.

(** [bool(v)]. *)
Definition truthy (v : value) : bool :=
  match v with
  | VNone => false
  | VBool b => b
  | VInt z => negb (Z.eqb z 0)
  | VStr s => negb (String.eqb s "")
  | VList l => match l with [] => false | _ => true end
  | VDict items => match items with [] => false | _ => true end
  | VObject _ _ => obj_truthy v
  end.

Definition _exit_with_failure_message (context : DataContext)
  (usage_event : string) (message : string) : M unit :=
  (cli_message message ;;
   send_usage_message context usage_event false ;;
   sys_exit 1)%cmd.

(** A call that leaves required positional parameters unbound raises
    [TypeError] before the body of the function runs. *)
Definition missing_positional_arguments (fname : string)
  (missing : list string) : exn :=
  Exception TypeError
    (fname ++ "() missing "
       ++ NilZero.string_of_uint (Nat.to_uint (List.length missing))
       ++ " required positional arguments: "
       ++ String.concat " and " (map (fun p => "'" ++ p ++ "'") missing)).

Definition checkpoint_list (directory : option string) : M unit :=
  (context <- load_data_context_with_error_handling directory ;;
   checkpoints <- list_checkpoints context ;;
   (match checkpoints with
    | [] => cli_message "No checkpoints found." ;; sys_exit 0
    | _ => ret tt
    end) ;;
   let number_found := List.length checkpoints in
   let plural := if Nat.ltb 1 number_found then "s" else "" in
   let message :=
     "Found " ++ NilZero.string_of_uint (Nat.to_uint number_found)
       ++ " checkpoint" ++ plural ++ "." in
   cli_message_list checkpoints message)%cmd.

(** [toolkit.load_batch(context, suite, batch_kwargs)] inside its [try]:
    the handler calls [_exit_with_failure_message] with the message alone,
    one argument for three parameters. *)
Definition load_batch_or_exit (context : DataContext)
  (suite batch_kwargs batch : value) : M value :=
  try_except
    (tell (load_batch_ev suite batch_kwargs) ;;
     toolkit_load_batch context suite batch_kwargs)%cmd
    [(DataContextError,
      fun e =>
        (@raise unit
           (missing_positional_arguments "_exit_with_failure_message"
              ["usage_event"; "message"]) ;;
         ret batch)%cmd)].

(** [for suite_name in batch["expectation_suite_names"]: ...], the
    sequence being evaluated once, before the first iteration.  The body
    assigns to [batch], so the variable is threaded through. *)
Fixpoint for_suite_names (context : DataContext) (suite_names : list value)
  (batch : value) (batches_to_validate : list value)
  : M (value * list value) :=
  match suite_names with
  | [] => ret (batch, batches_to_validate)
  | suite_name :: rest =>
      (suite <- load_expectation_suite context suite_name ;;
       batch_kwargs <- lift (getitem batch "batch_kwargs") ;;
       batch <- load_batch_or_exit context suite batch_kwargs batch ;;
       for_suite_names context rest batch ((batches_to_validate ++ [batch])%list))%cmd
  end.

(** [for batch in checkpoint_config["batches"]: ...]. *)
Fixpoint for_batches (context : DataContext) (batches : list value)
  (batches_to_validate : list value) : M (list value) :=
  match batches with
  | [] => ret batches_to_validate
  | batch :: rest =>
      (suite_names <-
         lift (let* names := getitem batch "expectation_suite_names" in
               iter names)%result ;;
       r <- for_suite_names context suite_names batch batches_to_validate ;;
       for_batches context rest (snd r))%cmd
  end.

Definition checkpoint_run (checkpoint : string) (directory : option string)
  : M unit :=
  (context <- load_data_context_with_error_handling directory ;;
   let usage_event := "cli.checkpoint.list" in
   checkpoint_config <-
     try_except (get_checkpoint context checkpoint)
       [(CheckpointNotFoundError,
         fun e =>
           _exit_with_failure_message context usage_event
             ("<red>Could not find checkpoint `" ++ checkpoint
                ++ "`.</red> Try running:
  - `<green>great_expectations checkpoint list</green>` to verify your checkpoint exists
  - `<green>great_expectations checkpoint new</green>` to configure a new checkpoint") ;;
           ret (VDict []));
        (CheckpointError,
         fun e =>
           _exit_with_failure_message context usage_event
             ("<red>" ++ str_exn e ++ "</red>") ;;
           ret (VDict []))] ;;
   batches <- lift (let* b := getitem checkpoint_config "batches" in iter b)%result ;;
   batches_to_validate <- for_batches context batches [] ;;
   validation_operator_name <-
     lift (getitem checkpoint_config "validation_operator_name") ;;
   results <-
     (tell (run_validation_operator_ev validation_operator_name
              batches_to_validate) ;;
      run_validation_operator context validation_operator_name
        batches_to_validate) ;;
   success <- lift (getitem results "success") ;;
   if negb (truthy success) then
     cli_message "Validation Failed!" ;;
     send_usage_message context usage_event true ;;
     sys_exit 1
   else
     cli_message "Validation Succeeded!" ;;
     send_usage_message context usage_event true ;;
     sys_exit 0)%cmd.

End CLI.

Section AfterTheLoops.

Variable obj_getitem : value -> string -> result value.
Variable obj_truthy : value -> bool.

(** What [checkpoint_run] does once the loops have filled
    [batches_to_validate]: the statements from
    [validation_operator_name = ...] to the end of the function. *)
Definition run_operator_and_exit (context : DataContext)
  (usage_event : string) (checkpoint_config : value)
  (batches_to_validate : list value) : M unit :=
  (validation_operator_name <-
     lift (getitem obj_getitem checkpoint_config "validation_operator_name") ;;
   results <-
     (tell (run_validation_operator_ev validation_operator_name
              batches_to_validate) ;;
      run_validation_operator context validation_operator_name
        batches_to_validate) ;;
   success <- lift (getitem obj_getitem results "success") ;;
   if negb (truthy obj_truthy success) then
     cli_message "Validation Failed!" ;;
     send_usage_message context usage_event true ;;
     sys_exit 1
   else
     cli_message "Validation Succeeded!" ;;
     send_usage_message context usage_event true ;;
     sys_exit 0)%cmd.

End AfterTheLoops.

(* ================================================================== *)
(** ** The project of the command-line tests

    The collaborators as [tests/cli/test_checkpoint.py] sets them up: a
    project with some checkpoints, suites, readable files and validation
    operators. *)
Module TestProject.

(** The classes of [great_expectations.exceptions] that stand below
    another: the checkpoint errors, and [BatchKwargsError], which a
    datasource raises for batch kwargs it cannot use, are below
    [DataContextError]. *)
Definition exc_subclass (c cls : exc_class) : bool :=
  match c, cls with
  | CheckpointNotFoundError, CheckpointError
  | CheckpointNotFoundError, DataContextError
  | CheckpointError, DataContextError => true
  | OtherError name, DataContextError => String.eqb name "BatchKwargsError"
  | _, _ => false
  end.

Definition mem (s : string) (l : list string) : bool :=
  existsb (String.eqb s) l.

Fixpoint assoc (l : list (string * value)) (k : string) : option value :=
  match l with
  | [] => None
  | (k', v) :: rest => if String.eqb k' k then Some v else assoc rest k
  end.

Definition context (checkpoints : list (string * value))
  (operators : list string) (validates : bool) : DataContext := {|
  get_checkpoint name :=
    match assoc checkpoints name with
    | Some config => ret config
    | None =>
        raise (Exception CheckpointNotFoundError
                 ("Could not find checkpoint `" ++ name ++ "`."))
    end;
  list_checkpoints := ret (map fst checkpoints);
  run_validation_operator name assets :=
    match assets with
    | [] =>
        raise (Exception DataContextError
                 "No batches of data were passed in. These are required")
    | _ :: _ =>
        match name with
        | VStr n =>
            if mem n operators then ret (VDict [("success", VBool validates)])
            else
              raise (Exception DataContextError
                       ("No validation operator `" ++ n
                          ++ "` was found in your project. Please verify this in your great_expectations.yml"))
        | _ => raise (Exception TypeError "unhashable type")
        end
    end
|}.

Definition load_data_context_with_error_handling (ctx : DataContext)
  (directory : option string) : M DataContext :=
  (tell (usage_message_ev "data_context.__init__" true) ;; ret ctx)%cmd.

Definition suite_object (name : string) : value :=
  VObject ["great_expectations.core.ExpectationSuite"; "object"]
    (String.length name).

Definition load_expectation_suite (suites : list string)
  (ctx : DataContext) (suite_name : value) : M value :=
  match suite_name with
  | VStr n =>
      if mem n suites then ret (suite_object n)
      else
        (cli_message ("<red>Could not find a suite named `" ++ n ++ "`.</red>") ;;
         sys_exit 1)%cmd
  | _ => (cli_message "<red>Could not find a suite.</red>" ;; sys_exit 1)%cmd
  end.

Definition dataset_object (path : string) : value :=
  VObject ["great_expectations.dataset.pandas_dataset.PandasDataset";
           pd_DataFrame; "object"]
    (String.length path).

(** Loading through a pandas datasource: a file that is not there raises
    [FileNotFoundError], batch kwargs without a path raise
    [BatchKwargsError]. *)
Definition load_batch (files : list string) (ctx : DataContext)
  (suite batch_kwargs : value) : M value :=
  match batch_kwargs with
  | VDict items =>
      match Dict.lookup items "path" with
      | Some (VStr p) =>
          if mem p files then ret (dataset_object p)
          else
            raise (Exception (OtherError "FileNotFoundError")
                     ("[Errno 2] No such file or directory: '" ++ p ++ "'"))
      | _ =>
          raise (Exception (OtherError "BatchKwargsError")
                   "Invalid batch_kwargs: path, s3, or dataset is required for a PandasDataset")
      end
  | _ =>
      raise (Exception (OtherError "BatchKwargsError")
               "Invalid batch_kwargs: path, s3, or dataset is required for a PandasDataset")
  end.

(** A loaded dataset is a frame: indexing it by a name that is not one of
    its columns raises [KeyError]. *)
Definition obj_getitem (v : value) (key : string) : result value :=
  Raise (Exception KeyError key).
Definition obj_iter (v : value) : result (list value) := Ok [].
Definition obj_truthy (v : value) : bool := true.

Definition file_csv : list (string * value) :=
  [("path", VStr "/totally/not/a/file.csv");
   ("datasource", VStr "mydatasource");
   ("reader_method", VStr "read_csv")].

Definition titanic_csv : list (string * value) :=
  [("path", VStr "data/Titanic.csv");
   ("datasource", VStr "mydatasource");
   ("reader_method", VStr "read_csv")].

(** Batch kwargs that name no path. *)
Definition no_path : list (string * value) :=
  [("datasource", VStr "mydatasource");
   ("reader_method", VStr "read_csv")].


Definition descriptor (batch_kwargs : list (string * value))
  (suite_names : list string) : value :=
  VDict [("batch_kwargs", VDict batch_kwargs);
         ("expectation_suite_names", VList (map VStr suite_names))].

Definition checkpoint_config (operator : string) (batches : list value)
  : value :=
  VDict [("validation_operator_name", VStr operator);
         ("batches", VList batches)].

(** [checkpoint run name -d directory] and [checkpoint list -d directory]
    in a project with the given checkpoints, suites, files and
    operators. *)
Definition run_checkpoint (checkpoints : list (string * value))
  (suites files operators : list string) (validates : bool)
  (name : string) : M unit :=
  let ctx := context checkpoints operators validates in
  checkpoint_run exc_subclass
    (load_data_context_with_error_handling ctx)
    (load_expectation_suite suites) (load_batch files)
    obj_getitem obj_iter obj_truthy name (Some "great_expectations").

Definition list_checkpoints_cmd (checkpoints : list (string * value))
  : M unit :=
  checkpoint_list
    (load_data_context_with_error_handling (context checkpoints [] true))
    (Some "great_expectations").

(** The checkpoints the tests write. *)
Definition bad_batch_empty_suite_list : value :=
  checkpoint_config "action_list_operator" [descriptor file_csv []].

Definition bad_batch : value :=
  checkpoint_config "action_list_operator" [descriptor file_csv ["bar"]].


Definition my_checkpoint : value :=
  checkpoint_config "action_list_operator"
    [descriptor titanic_csv ["suite_one"; "suite_two"]].

(** A batch without suites next to a batch with one. *)
Definition mixed_checkpoint : value :=
  checkpoint_config "action_list_operator"
    [descriptor file_csv []; descriptor titanic_csv ["iceberg"]].

(** A batch whose kwargs the datasource cannot use. *)
Definition no_path_checkpoint : value :=
  checkpoint_config "action_list_operator" [descriptor no_path ["bar"]].

(** A stand-in for the digest of a fingerprint. *)
Definition render (v : value) : string :=
  match v with
  | VStr s => s
  | _ => "?"
  end.

Definition plain_digest (items : list (string * value)) : string :=
  String.concat ", "
    (map (fun kv => fst kv ++ ": " ++ render (snd kv)) items).

End TestProject.

(* ================================================================== *)
(** ** [checkpoint new] and its helpers *)

(** [s.endswith(suffix)]. *)
Definition endswith (s suffix : string) : bool :=
  let n := String.length s in
  let m := String.length suffix in
  Nat.leb m n && String.eqb (substring (n - m) m s) suffix.

(** [v.name] for an attribute the built-in types do not have: objects of
    outside classes answer through [obj_getattr], every other value raises
    [AttributeError]. *)
Definition getattr (obj_getattr : value -> string -> result value)
  (v : value) (name : string) : result value :=
  match v with
  | VObject _ _ => obj_getattr v name
  | _ =>
      Raise (Exception (OtherError "AttributeError")
               ("'" ++ hd "object" (type_mro v)
                  ++ "' object has no attribute '" ++ name ++ "'"))
  end.

(** [try: body / except Exception as e: handler e].  Every class of
    [exc_class] derives from [Exception]; [SystemExit] does not. *)
Definition try_except_Exception {A} (body : M A) (handler : exn -> M A)
  : M A :=
  match body with
  | (t, Raise (Exception cls msg)) => after t (handler (Exception cls msg))
  | (t, Raise (SystemExit code)) => (t, Raise (SystemExit code))
  | (t, Ok a) => (t, Ok a)
  end.

Definition _validate_checkpoint_filename (checkpoint_filename : string)
  : M unit :=
  if negb (endswith checkpoint_filename ".py") then
    (cli_message
       "<red>Tap filename must end in .py. Please correct and re-run</red>" ;;
     sys_exit 1)%cmd
  else ret tt.

Section CheckpointNew.

(** What the module imports and the sources do not hold. *)

(** [great_expectations.cli.util]. *)
Variable load_data_context_with_error_handling : option string -> M DataContext.
Variable load_expectation_suite : DataContext -> value -> M value.
(** [context.root_directory]. *)
Variable root_directory : DataContext -> string.
(** [great_expectations.cli.datasource]. *)
Variable select_datasource : DataContext -> value -> M value.
Variable get_batch_kwargs :
  DataContext -> value -> M (value * value * value * value).
(** Attributes and truth of objects of outside classes. *)
Variable obj_getattr : value -> string -> result value.
Variable obj_truthy : value -> bool.
(** [os.path.abspath], [os.path.join], [file_relative_path], the path of the
    module, reading and writing a file, [str.format] and [lint_code]. *)
Variable os_path_abspath : string -> string.
Variable os_path_join : list string -> string.
Variable file_relative_path : string -> string -> string.
Variable module_file : string.
Variable read_file : string -> M string.
Variable write_file : string -> string -> M unit.
Variable str_format : string -> list value -> result string.
Variable lint_code : string -> M string.

Definition _get_datasource (context : DataContext) (datasource : value)
  : M value :=
  (datasource <- select_datasource context datasource ;;
   if negb (truthy obj_truthy datasource) then
     cli_message "<red>No datasources found in the context.</red>" ;;
     sys_exit 1
   else ret datasource)%cmd.

Definition _load_template : M string :=
  read_file (file_relative_path module_file "checkpoint_template.py").

Definition _write_tap_file_to_disk (batch_kwargs : value)
  (context_directory : string) (suite : value) (checkpoint_filename : string)
  : M string :=
  (let tap_file_path :=
     os_path_abspath
       (os_path_join [context_directory; ".."; checkpoint_filename]) in
   raw <- _load_template ;;
   expectation_suite_name <-
     lift (getattr obj_getattr suite "expectation_suite_name") ;;
   template <-
     lift (str_format raw
             [VStr checkpoint_filename; VStr context_directory;
              expectation_suite_name; batch_kwargs]) ;;
   linted_code <- lint_code template ;;
   write_file tap_file_path linted_code ;;
   ret tap_file_path)%cmd.

(** The block under [try:] in [_checkpoint_new]. *)
Definition _checkpoint_new_try (context : DataContext) (suite : value)
  (checkpoint_filename : string) (usage_event : string) (datasource : value)
  : M unit :=
  (_validate_checkpoint_filename checkpoint_filename ;;
   let context_directory := root_directory context in
   datasource <- _get_datasource context datasource ;;
   suite <- load_expectation_suite context suite ;;
   datasource_name <- lift (getattr obj_getattr datasource "name") ;;
   r <- get_batch_kwargs context datasource_name ;;
   let batch_kwargs := snd r in
   checkpoint_filename <-
     _write_tap_file_to_disk batch_kwargs context_directory suite
       checkpoint_filename ;;
   cli_message
     ("<green>A new checkpoint has been generated!</green>
To run this checkpoint, run: <green>python " ++ checkpoint_filename
        ++ "</green>
You can edit this script or place this code snippet in your pipeline.") ;;
   send_usage_message context usage_event true)%cmd.

Definition _checkpoint_new (suite : value) (checkpoint_filename : string)
  (directory : option string) (usage_event : string) (datasource : value)
  : M unit :=
  (context <- load_data_context_with_error_handling directory ;;
   try_except_Exception
     (_checkpoint_new_try context suite checkpoint_filename usage_event
        datasource)
     (fun e =>
        send_usage_message context usage_event false ;;
        raise e))%cmd.

Definition checkpoint_new (suite : value) (checkpoint_filename : string)
  (directory : option string) (datasource : value) : M unit :=
  _checkpoint_new suite checkpoint_filename directory "cli.checkpoint.new"
    datasource.

End CheckpointNew.

(** The project of the tests, seen from [checkpoint new]. *)
Module NewCheckpoint.

Definition root_directory (ctx : DataContext) : string :=
  "/project/great_expectations".

Definition datasource_object : value :=
  VObject ["great_expectations.datasource.PandasDatasource"; "object"] 0.

Definition select_datasource (datasources : list string) (ctx : DataContext)
  (datasource_name : value) : M value :=
  match datasources with
  | [] => ret VNone
  | _ => ret datasource_object
  end.

Definition get_batch_kwargs (ctx : DataContext) (datasource_name : value)
  : M (value * value * value * value) :=
  ret (datasource_name, VNone, VStr "Titanic", VDict TestProject.titanic_csv).

Definition obj_getattr (v : value) (name : string) : result value :=
  if String.eqb name "name" then Ok (VStr "mydatasource")
  else if String.eqb name "expectation_suite_name" then Ok (VStr "bar")
  else Raise (Exception (OtherError "AttributeError") name).

Definition os_path_join (parts : list string) : string :=
  String.concat "/" parts.

Definition os_path_abspath (path : string) : string := path.

Definition file_relative_path (file relative : string) : string :=
  "/site-packages/great_expectations/cli/" ++ relative.

Definition read_file (path : string) : M string := ret "{0} {1} {2} {3}".

Definition write_file (path content : string) : M unit := ret tt.

Definition str_format (raw : string) (args : list value) : result string :=
  Ok raw.

Definition lint_code (code : string) : M string := ret code.

(** [checkpoint new suite filename -d great_expectations] in a project with
    the given suites and datasources. *)
Definition new_checkpoint (suites datasources : list string)
  (suite checkpoint_filename : string) : M unit :=
  checkpoint_new
    (TestProject.load_data_context_with_error_handling
       (TestProject.context [] [] true))
    (TestProject.load_expectation_suite suites)
    root_directory (select_datasource datasources) get_batch_kwargs
    obj_getattr TestProject.obj_truthy os_path_abspath os_path_join
    file_relative_path "checkpoint.py" read_file write_file str_format
    lint_code (VStr suite) checkpoint_filename (Some "great_expectations")
    VNone.

End NewCheckpoint.

(* ================================================================== *)
(** ** Vocabulary of the statements *)

Definition constructor : Type :=
  list (string * value) -> list (string * value) -> result Dict.t.

(** [r] is a raised exception of class [cls]. *)
Definition raises {A} (r : result A) (cls : exc_class) : Prop :=
  exists msg, r = Raise (Exception cls msg).

(** Construction raises [cls] exactly when [key] is missing from what it is
    given, and otherwise returns the mapping that holds, under every key, the
    value last given for it. *)
Definition requires_key (init : constructor) (cls : exc_class) (key : string)
  : Prop :=
  forall mapping kwargs,
    (raises (init mapping kwargs) cls <-> ~ has_key (mapping ++ kwargs)%list key)
    /\ (has_key (mapping ++ kwargs)%list key <->
        exists self,
          init mapping kwargs = Ok self
          /\ forall k, Dict.lookup self k = assoc_last (mapping ++ kwargs)%list k).

(** On every instance [init] constructs, [accessor] answers the value stored
    under [key]: the one the given mapping binds to it, and [None] when the
    key is absent. *)
Definition reads (init : constructor) (accessor : Dict.t -> value)
  (key : string) : Prop :=
  forall mapping kwargs self,
    init mapping kwargs = Ok self ->
    accessor self = stored (mapping ++ kwargs)%list key
    /\ (forall v,
          NoDup (map fst (mapping ++ kwargs)%list) ->
          In (key, v) (mapping ++ kwargs)%list -> accessor self = v)
    /\ (~ has_key (mapping ++ kwargs)%list key -> accessor self = VNone).

(** The dataset given to a constructor is an instance of [cls]. *)
Definition dataset_isinstance (items : list (string * value)) (cls : string)
  : bool :=
  match assoc_last items "dataset" with
  | Some v => isinstance v cls
  | None => false
  end.

(** An instance is a dictionary of what it was given: no key twice, exactly
    the keys of the mapping and of the keyword arguments, and constructing
    again from the instance gives the instance. *)
Definition instance_of (init : constructor)
  (mapping kwargs : list (string * value)) (self : Dict.t) : Prop :=
  Dict.wf self
  /\ (forall k, In k (Dict.keys self) <-> has_key (mapping ++ kwargs)%list k)
  /\ init self [] = Ok self.

(** The order [sort_keys] puts the items in. *)
Definition key_le (a b : string * value) : Prop :=
  String.leb (fst a) (fst b) = true.

(** Two dictionaries hold the same value under every key. *)
Definition same_content (d1 d2 : Dict.t) : Prop :=
  forall k, Dict.lookup d1 k = Dict.lookup d2 k.

(** The suite names the outer loop of [checkpoint_run] finds on a batch
    descriptor: what iterating over its [expectation_suite_names] yields. *)
Definition suite_names_of (obj_getitem : value -> string -> result value)
  (obj_iter : value -> result (list value)) (batch : value) : list value :=
  match
    (let* names := getitem obj_getitem batch "expectation_suite_names" in
     iter obj_iter names)%result
  with
  | Ok names => names
  | Raise _ => []
  end.

(* ================================================================== *)
(** ** Dictionaries *)

Lemma lookup_setitem (d : Dict.t) (k k' : string) (v : value) :
  Dict.lookup (Dict.setitem d k v) k'
  = if String.eqb k k' then Some v else Dict.lookup d k'.
Proof.
  induction d as [|[a b] rest IH]; simpl.
  - reflexivity.
  - destruct (String.eqb a k) eqn:Hak; simpl.
    + apply String.eqb_eq in Hak; subst a.
      destruct (String.eqb k k'); reflexivity.
    + rewrite IH.
      destruct (String.eqb a k') eqn:Hak'; [|reflexivity].
      apply String.eqb_eq in Hak'; subst a.
      rewrite String.eqb_sym, Hak. reflexivity.
Qed.

Lemma lookup_update (items : list (string * value)) :
  forall (d : Dict.t) (k : string),
    Dict.lookup (Dict.update d items) k
    = match assoc_last items k with
      | Some v => Some v
      | None => Dict.lookup d k
      end.
Proof.
  unfold Dict.update.
  induction items as [|[k0 v0] items IH]; intros d k; simpl.
  - reflexivity.
  - rewrite IH, lookup_setitem.
    destruct (assoc_last items k); [reflexivity|].
    destruct (String.eqb k0 k); reflexivity.
Qed.

Lemma assoc_last_app (a b : list (string * value)) (k : string) :
  assoc_last (a ++ b) k
  = match assoc_last b k with
    | Some v => Some v
    | None => assoc_last a k
    end.
Proof.
  induction a as [|[k0 v0] a IH]; simpl.
  - destruct (assoc_last b k); reflexivity.
  - rewrite IH. destruct (assoc_last b k); reflexivity.
Qed.

Lemma lookup_init (mapping kwargs : list (string * value)) (k : string) :
  Dict.lookup (Dict.init mapping kwargs) k = assoc_last (mapping ++ kwargs) k.
Proof.
  unfold Dict.init. rewrite !lookup_update, assoc_last_app. simpl.
  destruct (assoc_last kwargs k); [reflexivity|].
  destruct (assoc_last mapping k); reflexivity.
Qed.

Lemma assoc_last_None (items : list (string * value)) (k : string) :
  assoc_last items k = None <-> ~ has_key items k.
Proof.
  unfold has_key.
  induction items as [|[k0 v0] items IH]; simpl.
  - tauto.
  - destruct (assoc_last items k) eqn:E.
    + split; [discriminate|].
      intros H. exfalso. apply H. right.
      destruct (in_dec string_dec k (map fst items)) as [Hin|Hnin]; [exact Hin|].
      apply IH in Hnin. discriminate.
    + destruct (String.eqb k0 k) eqn:Hk.
      * apply String.eqb_eq in Hk. split; [discriminate|]. intros H. tauto.
      * apply String.eqb_neq in Hk. split; [|reflexivity].
        intros _ [H|H]; [tauto|]. apply IH in H; [exact H|reflexivity].
Qed.

Lemma assoc_last_In (items : list (string * value)) (k : string) (v : value) :
  NoDup (map fst items) -> In (k, v) items -> assoc_last items k = Some v.
Proof.
  induction items as [|[k0 v0] items IH]; simpl; intros Hnd Hin.
  - contradiction.
  - inversion Hnd as [|? ? Hnotin Hnd']; subst.
    destruct Hin as [Heq|Hin].
    + inversion Heq; subst.
      assert (E : assoc_last items k = None) by (apply assoc_last_None; exact Hnotin).
      rewrite E, String.eqb_refl. reflexivity.
    + rewrite (IH Hnd' Hin). reflexivity.
Qed.

Lemma assoc_last_has_key (items : list (string * value)) (k : string) :
  has_key items k <-> exists v, assoc_last items k = Some v.
Proof.
  destruct (assoc_last items k) eqn:E.
  - split; [eauto|]. intros _.
    destruct (in_dec string_dec k (map fst items)) as [H|H]; [exact H|].
    apply assoc_last_None in H. congruence.
  - apply assoc_last_None in E. split; [contradiction|].
    intros [v Hv]. discriminate.
Qed.

Lemma contains_init (mapping kwargs : list (string * value)) (k : string) :
  Dict.contains (Dict.init mapping kwargs) k = true
  <-> has_key (mapping ++ kwargs) k.
Proof.
  unfold Dict.contains. rewrite lookup_init, assoc_last_has_key.
  destruct (assoc_last (mapping ++ kwargs) k).
  - split; eauto.
  - split; [discriminate|]. intros [v Hv]. discriminate.
Qed.

Lemma get_init (mapping kwargs : list (string * value)) (k : string) :
  Dict.get (Dict.init mapping kwargs) k = stored (mapping ++ kwargs) k.
Proof. unfold Dict.get, stored. rewrite lookup_init. reflexivity. Qed.

(** The shape the six checked constructors and [BatchMarkers] share. *)
Lemma requires_key_intro (init : constructor) (cls : exc_class)
  (key msg : string) :
  (forall mapping kwargs,
      init mapping kwargs
      = if negb (Dict.contains (Dict.init mapping kwargs) key)
        then Raise (Exception cls msg)
        else Ok (Dict.init mapping kwargs)) ->
  requires_key init cls key.
Proof.
  intros Hinit mapping kwargs. rewrite Hinit.
  pose proof (contains_init mapping kwargs key) as Hc.
  destruct (Dict.contains (Dict.init mapping kwargs) key); simpl.
  - assert (Hk : has_key (mapping ++ kwargs) key) by (apply Hc; reflexivity).
    split; split.
    + intros [m Hm]. discriminate.
    + intros Hn. contradiction.
    + intros _. exists (Dict.init mapping kwargs). split; [reflexivity|].
      intros k. apply lookup_init.
    + intros _. exact Hk.
  - assert (Hk : ~ has_key (mapping ++ kwargs) key).
    { intros H. apply Hc in H. discriminate. }
    split; split.
    + intros _. exact Hk.
    + intros _. exists msg. reflexivity.
    + intros H. contradiction.
    + intros [self [Hself _]]. discriminate.
Qed.

Lemma reads_intro (init : constructor) (accessor : Dict.t -> value)
  (key : string) :
  (forall mapping kwargs self,
      init mapping kwargs = Ok self -> self = Dict.init mapping kwargs) ->
  (forall self, accessor self = Dict.get self key) ->
  reads init accessor key.
Proof.
  intros Hinit Hacc mapping kwargs self Hself.
  apply Hinit in Hself. subst self. rewrite Hacc, get_init.
  split; [reflexivity|]. unfold stored. split.
  - intros v Hnd Hin. rewrite (assoc_last_In _ _ _ Hnd Hin). reflexivity.
  - intros Hn. apply assoc_last_None in Hn. rewrite Hn. reflexivity.
Qed.

(* ================================================================== *)
(** ** Construction of batch kwargs and batch markers *)

Ltac returns_self :=
  let mapping := fresh "mapping" in
  let kwargs := fresh "kwargs" in
  let self := fresh "self" in
  let H := fresh "H" in
  intros mapping kwargs self;
  match goal with
  | |- ?init _ _ = _ -> _ => unfold init
  end;
  unfold PandasDatasourceBatchKwargs.__init__,
    SparkDFDatasourceBatchKwargs.__init__,
    SqlAlchemyDatasourceBatchKwargs.__init__, BatchKwargs.__init__;
  match goal with
  | |- (if ?c then _ else _) = _ -> _ =>
      destruct c; intros H; [discriminate | injection H as H; symmetry; exact H]
  end.

Ltac checks_key :=
  eapply requires_key_intro; intros; reflexivity.

Ltac projects :=
  apply reads_intro; [returns_self | intros; reflexivity].

Lemma in_memory_init (mapping kwargs : list (string * value)) :
  InMemoryBatchKwargs.__init__ mapping kwargs
  = match assoc_last (mapping ++ kwargs) "dataset" with
    | Some _ => Ok (Dict.init mapping kwargs)
    | None =>
        Raise (Exception InvalidBatchKwargsError
                 "InMemoryBatchKwargs requires a 'dataset' element")
    end.
Proof.
  unfold InMemoryBatchKwargs.__init__, PandasDatasourceBatchKwargs.__init__,
    BatchKwargs.__init__, Dict.contains.
  rewrite lookup_init.
  destruct (assoc_last (mapping ++ kwargs) "dataset"); reflexivity.
Qed.

Lemma pandas_in_memory_init (mapping kwargs : list (string * value)) :
  PandasDatasourceInMemoryBatchKwargs.__init__ mapping kwargs
  = match assoc_last (mapping ++ kwargs) "dataset" with
    | Some v =>
        if isinstance v pd_DataFrame then Ok (Dict.init mapping kwargs)
        else
          Raise (Exception InvalidBatchKwargsError
                   "PandasDatasourceInMemoryBatchKwargs 'dataset' must be a pandas DataFrame")
    | None =>
        Raise (Exception InvalidBatchKwargsError
                 "InMemoryBatchKwargs requires a 'dataset' element")
    end.
Proof.
  unfold PandasDatasourceInMemoryBatchKwargs.__init__.
  rewrite in_memory_init.
  destruct (assoc_last (mapping ++ kwargs) "dataset") as [v|] eqn:E; simpl.
  - unfold Dict.getitem. rewrite lookup_init, E. simpl.
    destruct (isinstance v pd_DataFrame); reflexivity.
  - reflexivity.
Qed.

Lemma spark_in_memory_init (env : environment)
  (mapping kwargs : list (string * value)) :
  SparkDFDatasourceInMemoryBatchKwargs.__init__ env mapping kwargs
  = match assoc_last (mapping ++ kwargs) "dataset" with
    | Some v =>
        if pyspark_importable env then
          if isinstance v pyspark_sql_DataFrame
          then Ok (Dict.init mapping kwargs)
          else
            Raise (Exception InvalidBatchKwargsError
                     "SparkDFDatasourceInMemoryBatchKwargs 'dataset' must be a spark DataFrame")
        else
          Raise (Exception InvalidBatchKwargsError
                   "SparkDFDatasourceInMemoryBatchKwargs requires a valid pyspark installation, but pyspark import failed.")
    | None =>
        Raise (Exception InvalidBatchKwargsError
                 "InMemoryBatchKwargs requires a 'dataset' element")
    end.
Proof.
  unfold SparkDFDatasourceInMemoryBatchKwargs.__init__, import_pyspark.
  rewrite in_memory_init.
  destruct (assoc_last (mapping ++ kwargs) "dataset") as [v|] eqn:E; simpl.
  - destruct (pyspark_importable env); simpl; [|reflexivity].
    unfold Dict.getitem. rewrite lookup_init, E. simpl.
    destruct (isinstance v pyspark_sql_DataFrame); reflexivity.
  - reflexivity.
Qed.

(** C7. Each of the six variants raises [InvalidBatchKwargsError] exactly
    when its required key ([path], [s3], [dataset], [table], [query],
    [query]) is missing from the mapping it is given; with the key present
    construction returns the mapping, every accessor answers the value
    stored under its key, and an accessor of an absent optional key
    ([reader_method], [limit], [schema], [query_parameters]) answers
    [None]. *)
Theorem batch_kwargs_require_their_key :
  (requires_key PathBatchKwargs.__init__ InvalidBatchKwargsError "path"
   /\ reads PathBatchKwargs.__init__ PathBatchKwargs.path "path"
   /\ reads PathBatchKwargs.__init__ PathBatchKwargs.reader_method
        "reader_method")
  /\ (requires_key S3BatchKwargs.__init__ InvalidBatchKwargsError "s3"
      /\ reads S3BatchKwargs.__init__ S3BatchKwargs.s3 "s3"
      /\ reads S3BatchKwargs.__init__ S3BatchKwargs.reader_method
           "reader_method")
  /\ (requires_key InMemoryBatchKwargs.__init__ InvalidBatchKwargsError
        "dataset"
      /\ reads InMemoryBatchKwargs.__init__ InMemoryBatchKwargs.dataset
           "dataset")
  /\ (requires_key SqlAlchemyDatasourceTableBatchKwargs.__init__
        InvalidBatchKwargsError "table"
      /\ reads SqlAlchemyDatasourceTableBatchKwargs.__init__
           SqlAlchemyDatasourceTableBatchKwargs.table "table"
      /\ reads SqlAlchemyDatasourceTableBatchKwargs.__init__
           SqlAlchemyDatasourceTableBatchKwargs.limit "limit"
      /\ reads SqlAlchemyDatasourceTableBatchKwargs.__init__
           SqlAlchemyDatasourceTableBatchKwargs.schema "schema")
  /\ (requires_key SqlAlchemyDatasourceQueryBatchKwargs.__init__
        InvalidBatchKwargsError "query"
      /\ reads SqlAlchemyDatasourceQueryBatchKwargs.__init__
           SqlAlchemyDatasourceQueryBatchKwargs.query "query"
      /\ reads SqlAlchemyDatasourceQueryBatchKwargs.__init__
           SqlAlchemyDatasourceQueryBatchKwargs.query_parameters
           "query_parameters"
      /\ reads SqlAlchemyDatasourceQueryBatchKwargs.__init__
           SqlAlchemyDatasourceQueryBatchKwargs.limit "limit"
      /\ reads SqlAlchemyDatasourceQueryBatchKwargs.__init__
           SqlAlchemyDatasourceQueryBatchKwargs.schema "schema")
  /\ (requires_key SparkDFDatasourceQueryBatchKwargs.__init__
        InvalidBatchKwargsError "query"
      /\ reads SparkDFDatasourceQueryBatchKwargs.__init__
           SparkDFDatasourceQueryBatchKwargs.query "query").
Proof.
  repeat match goal with |- _ /\ _ => split end;
    first [checks_key | projects].
Qed.

Example path_batch_kwargs_of_the_tests :
  PathBatchKwargs.__init__ TestProject.file_csv [] = Ok TestProject.file_csv
  /\ PathBatchKwargs.path TestProject.file_csv = VStr "/totally/not/a/file.csv"
  /\ PathBatchKwargs.reader_method [("path", VStr "data/Titanic.csv")] = VNone
  /\ PathBatchKwargs.__init__ [] [("reader_method", VStr "read_csv")]
     = Raise (Exception InvalidBatchKwargsError
                "PathBatchKwargs requires a path element")
  /\ PathBatchKwargs.__init__ [("path", VStr "a.csv")] [("path", VStr "b.csv")]
     = Ok [("path", VStr "b.csv")].
Proof. repeat split. Qed.

(** C8. [PandasDatasourceInMemoryBatchKwargs] raises
    [InvalidBatchKwargsError] from its constructor whenever the dataset it is
    given is not a pandas [DataFrame], and
    [SparkDFDatasourceInMemoryBatchKwargs] whenever pyspark cannot be
    imported or the dataset is not a spark [DataFrame]; in every other case
    the constructor returns the mapping. *)
Theorem in_memory_kwargs_check_their_dataset :
  (forall mapping kwargs,
      (dataset_isinstance (mapping ++ kwargs) pd_DataFrame = false
       <-> raises (PandasDatasourceInMemoryBatchKwargs.__init__ mapping kwargs)
             InvalidBatchKwargsError)
      /\ (dataset_isinstance (mapping ++ kwargs) pd_DataFrame = true
          <-> PandasDatasourceInMemoryBatchKwargs.__init__ mapping kwargs
              = Ok (Dict.init mapping kwargs)))
  /\ (forall env mapping kwargs,
         (pyspark_importable env = false
          \/ dataset_isinstance (mapping ++ kwargs) pyspark_sql_DataFrame = false
          <-> raises
                (SparkDFDatasourceInMemoryBatchKwargs.__init__ env mapping kwargs)
                InvalidBatchKwargsError)
         /\ (pyspark_importable env = true
             /\ dataset_isinstance (mapping ++ kwargs) pyspark_sql_DataFrame = true
             <-> SparkDFDatasourceInMemoryBatchKwargs.__init__ env mapping kwargs
                 = Ok (Dict.init mapping kwargs))).
Proof.
  split.
  - intros mapping kwargs. rewrite pandas_in_memory_init.
    unfold dataset_isinstance, raises.
    destruct (assoc_last (mapping ++ kwargs) "dataset") as [v|].
    + destruct (isinstance v pd_DataFrame); repeat split;
        try discriminate; try reflexivity; eauto.
      intros [msg H]. discriminate.
    + repeat split; try discriminate; eauto.
  - intros env mapping kwargs. rewrite spark_in_memory_init.
    unfold dataset_isinstance, raises.
    destruct (assoc_last (mapping ++ kwargs) "dataset") as [v|];
      destruct (pyspark_importable env);
      try destruct (isinstance v pyspark_sql_DataFrame);
      repeat split; try discriminate; try reflexivity; eauto;
      try (intros [H|H]; discriminate);
      try (intros [msg H]; discriminate);
      try (intros [H1 H2]; discriminate).
Qed.

Example in_memory_kwargs_of_a_frame :
  let frame := VObject [pd_DataFrame; "object"] 0 in
  PandasDatasourceInMemoryBatchKwargs.__init__ [("dataset", frame)] []
  = Ok [("dataset", frame)]
  /\ raises
       (PandasDatasourceInMemoryBatchKwargs.__init__
          [("dataset", VStr "not a frame")] [])
       InvalidBatchKwargsError
  /\ raises
       (SparkDFDatasourceInMemoryBatchKwargs.__init__
          {| pyspark_importable := true |} [("dataset", frame)] [])
       InvalidBatchKwargsError
  /\ raises
       (SparkDFDatasourceInMemoryBatchKwargs.__init__
          {| pyspark_importable := false |}
          [("dataset", VObject [pyspark_sql_DataFrame; "object"] 1)] [])
       InvalidBatchKwargsError
  /\ SparkDFDatasourceInMemoryBatchKwargs.__init__
       {| pyspark_importable := true |}
       [("dataset", VObject [pyspark_sql_DataFrame; "object"] 1)] []
     = Ok [("dataset", VObject [pyspark_sql_DataFrame; "object"] 1)].
Proof. repeat split; eexists; reflexivity. Qed.

(** C9. [BatchMarkers] raises [InvalidBatchIdError] exactly when
    [ge_load_time] is missing from the mapping it is given; with the key
    present construction returns the mapping and the [ge_load_time] accessor
    answers the value stored under it. *)
Theorem batch_markers_require_ge_load_time :
  requires_key BatchMarkers.__init__ InvalidBatchIdError "ge_load_time"
  /\ reads BatchMarkers.__init__ BatchMarkers.ge_load_time "ge_load_time".
Proof.
  split; [checks_key | projects].
Qed.

(* ================================================================== *)
(** ** The fingerprint and the order of insertion *)

Lemma ascii_compare_trans (x y z : ascii) :
  Ascii.compare x y <> Gt -> Ascii.compare y z <> Gt ->
  Ascii.compare x z <> Gt
  /\ (Ascii.compare x z = Eq ->
      Ascii.compare x y = Eq /\ Ascii.compare y z = Eq).
Proof.
  unfold Ascii.compare.
  destruct (N.compare_spec (N_of_ascii x) (N_of_ascii y)) as [Exy|Lxy|Gxy];
    destruct (N.compare_spec (N_of_ascii y) (N_of_ascii z)) as [Eyz|Lyz|Gyz];
    destruct (N.compare_spec (N_of_ascii x) (N_of_ascii z)) as [Exz|Lxz|Gxz];
    intros Hxy Hyz; (split; [|intros Hxz]); try congruence; try lia;
    try (split; congruence).
Qed.

Lemma string_leb_trans (a b c : string) :
  String.leb a b = true -> String.leb b c = true -> String.leb a c = true.
Proof.
  unfold String.leb.
  assert (H : forall a b c,
             String.compare a b <> Gt -> String.compare b c <> Gt ->
             String.compare a c <> Gt).
  { clear. induction a as [|x a IH]; intros [|y b] [|z c]; simpl;
      try congruence.
    intros H1 H2.
    assert (Hxy : Ascii.compare x y <> Gt)
      by (destruct (Ascii.compare x y); congruence).
    assert (Hyz : Ascii.compare y z <> Gt)
      by (destruct (Ascii.compare y z); congruence).
    destruct (ascii_compare_trans x y z Hxy Hyz) as [Hxz Heq].
    destruct (Ascii.compare x z) eqn:E; try congruence.
    destruct (Heq eq_refl) as [E1 E2]. rewrite E1 in H1. rewrite E2 in H2.
    exact (IH b c H1 H2). }
  intros H1 H2.
  specialize (H a b c).
  destruct (String.compare a b); try discriminate;
    destruct (String.compare b c); try discriminate;
    destruct (String.compare a c); try reflexivity;
    exfalso; apply H; congruence.
Qed.

Lemma insert_by_key_perm (x : string * value) (l : list (string * value)) :
  Permutation (IDDict.insert_by_key x l) (x :: l).
Proof.
  induction l as [|h t IH]; simpl.
  - apply Permutation_refl.
  - destruct (String.leb (fst x) (fst h)).
    + apply Permutation_refl.
    + eapply perm_trans; [apply perm_skip, IH | apply perm_swap].
Qed.

Lemma sort_keys_perm (d : Dict.t) : Permutation (IDDict.sort_keys d) d.
Proof.
  unfold IDDict.sort_keys.
  induction d as [|x d IH]; simpl.
  - apply perm_nil.
  - eapply perm_trans; [apply insert_by_key_perm | apply perm_skip, IH].
Qed.

Lemma insert_by_key_sorted (x : string * value) (l : list (string * value)) :
  StronglySorted key_le l -> StronglySorted key_le (IDDict.insert_by_key x l).
Proof.
  induction 1 as [|h t Hs IH Hall]; simpl.
  - constructor; constructor.
  - destruct (String.leb (fst x) (fst h)) eqn:E.
    + constructor; [constructor; assumption|].
      constructor; [exact E|].
      eapply Forall_impl; [|exact Hall].
      intros a Ha. unfold key_le in *. eapply string_leb_trans; eassumption.
    + constructor; [exact IH|].
      eapply Permutation_Forall;
        [apply Permutation_sym, insert_by_key_perm|].
      constructor; [|exact Hall].
      unfold key_le. destruct (String.leb_total (fst h) (fst x)); congruence.
Qed.

Lemma sort_keys_sorted (d : Dict.t) : StronglySorted key_le (IDDict.sort_keys d).
Proof.
  unfold IDDict.sort_keys.
  induction d as [|x d IH]; simpl.
  - constructor.
  - apply insert_by_key_sorted, IH.
Qed.

(** Items with distinct keys have one arrangement in key order. *)
Lemma sorted_by_key_unique (l1 : list (string * value)) :
  forall l2,
    StronglySorted key_le l1 -> StronglySorted key_le l2 ->
    NoDup (map fst l1) -> Permutation l1 l2 -> l1 = l2.
Proof.
  induction l1 as [|x t1 IH]; intros l2 S1 S2 Hnd Hp.
  - apply Permutation_nil in Hp. symmetry; exact Hp.
  - destruct l2 as [|y t2].
    + apply Permutation_sym, Permutation_nil in Hp. discriminate.
    + inversion S1 as [|? ? S1' F1]; subst.
      inversion S2 as [|? ? S2' F2]; subst.
      inversion Hnd as [|? ? Hnotin Hnd']; subst.
      assert (Hxy : x = y).
      { assert (Hx : In x (y :: t2))
          by (eapply Permutation_in; [exact Hp | left; reflexivity]).
        assert (Hy : In y (x :: t1))
          by (eapply Permutation_in;
              [apply Permutation_sym; exact Hp | left; reflexivity]).
        destruct Hx as [Hx|Hx]; [symmetry; exact Hx|].
        destruct Hy as [Hy|Hy]; [exact Hy|].
        exfalso. apply Hnotin.
        rewrite Forall_forall in F1, F2.
        pose proof (F1 y Hy) as L1. pose proof (F2 x Hx) as L2.
        unfold key_le in L1, L2.
        rewrite (String.leb_antisym _ _ L1 L2).
        apply in_map. exact Hy. }
      subst y. f_equal.
      apply IH; try assumption.
      eapply Permutation_cons_inv; exact Hp.
Qed.

Lemma keys_setitem (d : Dict.t) (k : string) (v : value) (k' : string) :
  In k' (Dict.keys (Dict.setitem d k v)) <-> k' = k \/ In k' (Dict.keys d).
Proof.
  unfold Dict.keys.
  induction d as [|[a b] rest IH]; simpl.
  - intuition.
  - destruct (String.eqb a k) eqn:E; simpl.
    + apply String.eqb_eq in E. subst a. intuition.
    + rewrite IH. intuition.
Qed.

Lemma wf_setitem (d : Dict.t) (k : string) (v : value) :
  Dict.wf d -> Dict.wf (Dict.setitem d k v).
Proof.
  unfold Dict.wf.
  induction d as [|[a b] rest IH]; simpl; intros Hnd.
  - constructor; [intros []|constructor].
  - inversion Hnd as [|? ? Hnotin Hnd']; subst.
    destruct (String.eqb a k) eqn:E; simpl.
    + constructor; assumption.
    + constructor; [|apply IH; exact Hnd'].
      intros Hin. apply keys_setitem in Hin.
      apply String.eqb_neq in E. destruct Hin as [Hin|Hin]; [congruence|].
      apply Hnotin. exact Hin.
Qed.

Lemma wf_update (items : list (string * value)) :
  forall d, Dict.wf d -> Dict.wf (Dict.update d items).
Proof.
  unfold Dict.update.
  induction items as [|[k v] items IH]; simpl; intros d Hd.
  - exact Hd.
  - apply IH, wf_setitem, Hd.
Qed.

Lemma wf_init (mapping kwargs : list (string * value)) :
  Dict.wf (Dict.init mapping kwargs).
Proof.
  unfold Dict.init. apply wf_update, wf_update. constructor.
Qed.

Lemma lookup_In (d : Dict.t) (k : string) (v : value) :
  Dict.wf d -> (In (k, v) d <-> Dict.lookup d k = Some v).
Proof.
  unfold Dict.wf, Dict.keys.
  induction d as [|[a b] rest IH]; simpl; intros Hnd.
  - split; [contradiction|discriminate].
  - inversion Hnd as [|? ? Hnotin Hnd']; subst.
    destruct (String.eqb a k) eqn:E.
    + apply String.eqb_eq in E. subst a. split.
      * intros [H|H]; [congruence|].
        exfalso. apply Hnotin. change k with (fst (k, v)).
        apply in_map. exact H.
      * intros H. left. congruence.
    + apply String.eqb_neq in E. rewrite <- (IH Hnd'). split.
      * intros [H|H]; [congruence|exact H].
      * intros H. right. exact H.
Qed.

Lemma same_content_perm (d1 d2 : Dict.t) :
  Dict.wf d1 -> Dict.wf d2 -> same_content d1 d2 -> Permutation d1 d2.
Proof.
  intros W1 W2 Hsame.
  apply NoDup_Permutation.
  - eapply NoDup_map_inv. exact W1.
  - eapply NoDup_map_inv. exact W2.
  - intros [k v]. rewrite (lookup_In d1 k v W1), (lookup_In d2 k v W2), Hsame.
    reflexivity.
Qed.

Lemma sort_keys_same_content (d1 d2 : Dict.t) :
  Dict.wf d1 -> Dict.wf d2 -> same_content d1 d2 ->
  IDDict.sort_keys d1 = IDDict.sort_keys d2.
Proof.
  intros W1 W2 Hsame.
  apply sorted_by_key_unique.
  - apply sort_keys_sorted.
  - apply sort_keys_sorted.
  - eapply Permutation_NoDup; [|exact W1].
    apply Permutation_sym, Permutation_map, sort_keys_perm.
  - eapply perm_trans; [apply sort_keys_perm|].
    eapply perm_trans; [apply same_content_perm; eassumption|].
    apply Permutation_sym, sort_keys_perm.
Qed.

(** C10. Two [BatchKwargs] built from the same key/value content, given in
    any order, have the same fingerprint, whatever the digest. *)
Theorem fingerprint_ignores_insertion_order
  (digest : list (string * value) -> string)
  (mapping1 kwargs1 mapping2 kwargs2 : list (string * value)) :
  (forall k,
      assoc_last (mapping1 ++ kwargs1) k = assoc_last (mapping2 ++ kwargs2) k) ->
  IDDict.to_id digest (BatchKwargs.__init__ mapping1 kwargs1)
  = IDDict.to_id digest (BatchKwargs.__init__ mapping2 kwargs2).
Proof.
  intros Hsame. unfold IDDict.to_id, BatchKwargs.__init__. f_equal.
  apply sort_keys_same_content; try apply wf_init.
  intros k. rewrite !lookup_init. apply Hsame.
Qed.

Lemma fingerprint_ignores_insertion_order_witness :
  BatchKwargs.__init__
    [("path", VStr "data/Titanic.csv"); ("reader_method", VStr "read_csv")] []
  <> BatchKwargs.__init__
       [("reader_method", VStr "read_csv"); ("path", VStr "data/Titanic.csv")] []
  /\ IDDict.to_id TestProject.plain_digest
       (BatchKwargs.__init__
          [("path", VStr "data/Titanic.csv"); ("reader_method", VStr "read_csv")]
          [])
     = IDDict.to_id TestProject.plain_digest
         (BatchKwargs.__init__
            [("reader_method", VStr "read_csv"); ("path", VStr "data/Titanic.csv")]
            []).
Proof.
  split.
  - discriminate.
  - apply (fingerprint_ignores_insertion_order TestProject.plain_digest).
    intros k. cbn [assoc_last app].
    destruct (String.eqb_spec "path" k) as [E1|N1];
      destruct (String.eqb_spec "reader_method" k) as [E2|N2];
      try reflexivity.
    subst k. discriminate.
Defined.

(* ================================================================== *)
(** ** The loops of [checkpoint_run] *)

Lemma bind_Ok_inv {A B} (m : M A) (k : A -> M B) (t : list event) (b : B) :
  bind m k = (t, Ok b) ->
  exists t1 a t2, m = (t1, Ok a) /\ k a = (t2, Ok b) /\ t = (t1 ++ t2)%list.
Proof.
  unfold bind. destruct m as [t1 [a|e]]; [|discriminate].
  destruct (k a) as [t2 r] eqn:E. intros H. inversion H; subst.
  exists t1, a, t2. auto.
Qed.

Lemma after_app {A} (t1 t2 : list event) (m : M A) :
  after t1 (after t2 m) = after (t1 ++ t2)%list m.
Proof. unfold after. simpl. rewrite app_assoc. reflexivity. Qed.

Lemma bind_after {A B} (t : list event) (a : A) (k : A -> M B) :
  bind (t, Ok a) k = after t (k a).
Proof. unfold bind, after. destruct (k a). reflexivity. Qed.

Lemma last_cons {A} (x : A) (l : list A) (d : A) :
  last (x :: l) d = last l x.
Proof.
  revert x d. induction l as [|y l IH]; intros x d; [reflexivity|].
  change (last (x :: y :: l) d) with (last (y :: l) d).
  rewrite !IH. reflexivity.
Qed.

Section Loops.

Variable exc_subclass : exc_class -> exc_class -> bool.
Variable load_expectation_suite : DataContext -> value -> M value.
Variable toolkit_load_batch : DataContext -> value -> value -> M value.
Variable obj_getitem : value -> string -> result value.
Variable obj_iter : value -> result (list value).

Local Abbreviation load_batch_or_exit' :=
  (load_batch_or_exit exc_subclass toolkit_load_batch).
Local Abbreviation for_suite_names' :=
  (for_suite_names exc_subclass load_expectation_suite toolkit_load_batch
     obj_getitem).
Local Abbreviation for_batches' :=
  (for_batches exc_subclass load_expectation_suite toolkit_load_batch
     obj_getitem obj_iter).

(** A load that succeeds is the collaborator's. *)
Lemma load_batch_or_exit_Ok (context : DataContext)
  (suite batch_kwargs batch loaded : value) (t : list event) :
  toolkit_load_batch context suite batch_kwargs = (t, Ok loaded) ->
  load_batch_or_exit' context suite batch_kwargs batch
  = (load_batch_ev suite batch_kwargs :: t, Ok loaded).
Proof.
  intros H. unfold load_batch_or_exit, try_except, bind, tell.
  rewrite H. reflexivity.
Qed.

Lemma load_batch_or_exit_Ok_inv (context : DataContext)
  (suite batch_kwargs batch loaded : value) (t : list event) :
  load_batch_or_exit' context suite batch_kwargs batch = (t, Ok loaded) ->
  exists t',
    toolkit_load_batch context suite batch_kwargs = (t', Ok loaded)
    /\ t = load_batch_ev suite batch_kwargs :: t'.
Proof.
  unfold load_batch_or_exit, try_except, bind, tell.
  destruct (toolkit_load_batch context suite batch_kwargs) as [t' [b|e]];
    simpl.
  - intros H. inversion H; subst. eauto.
  - destruct (exn_matches exc_subclass e DataContextError); discriminate.
Qed.

(** The handler of a failed load never prints, never reports and never
    exits: its call of [_exit_with_failure_message] raises [TypeError]. *)
Lemma load_batch_or_exit_DataContextError (context : DataContext)
  (suite batch_kwargs batch : value) (t : list event) (msg : string) :
  toolkit_load_batch context suite batch_kwargs
  = (t, Raise (Exception DataContextError msg)) ->
  load_batch_or_exit' context suite batch_kwargs batch
  = (load_batch_ev suite batch_kwargs :: t,
     Raise (Exception TypeError
              "_exit_with_failure_message() missing 2 required positional arguments: 'usage_event' and 'message'")).
Proof.
  intros H. unfold load_batch_or_exit, try_except, bind, tell.
  rewrite H. simpl.
  destruct (exc_class_eq_dec DataContextError DataContextError);
    [|congruence].
  unfold after. simpl. rewrite app_nil_r. reflexivity.
Qed.

(** Every name the inner loop gets through has appended one batch, and the
    loop variable ends as the batch loaded last. *)
Lemma for_suite_names_appends (context : DataContext)
  (suite_names : list value) :
  forall batch acc t batch' acc',
    for_suite_names' context suite_names batch acc = (t, Ok (batch', acc')) ->
    exists loaded,
      acc' = (acc ++ loaded)%list
      /\ List.length loaded = List.length suite_names
      /\ batch' = last loaded batch.
Proof.
  induction suite_names as [|suite_name rest IH];
    intros batch acc t batch' acc' H.
  - inversion H; subst. exists []. rewrite app_nil_r. auto.
  - cbn [for_suite_names] in H.
    apply bind_Ok_inv in H as (t1 & suite & t2 & _ & H & _).
    apply bind_Ok_inv in H as (t3 & kw & t4 & _ & H & _).
    apply bind_Ok_inv in H as (t5 & b & t6 & _ & H & _).
    apply IH in H as (more & -> & Hlen & ->).
    exists (b :: more). rewrite <- app_assoc, last_cons. simpl. auto.
Qed.

(** A descriptor without suite names is passed over: nothing is loaded for
    it and nothing is raised. *)
Lemma for_batches_skips_empty (context : DataContext)
  (items : list (string * value)) (rest acc : list value) :
  Dict.lookup items "expectation_suite_names" = Some (VList []) ->
  for_batches' context (VDict items :: rest) acc
  = for_batches' context rest acc.
Proof.
  intros H. cbn [for_batches]. unfold lift, getitem, Dict.getitem.
  rewrite H. simpl.
  destruct (for_batches' context rest acc) as [t r]. reflexivity.
Qed.

(** X17. The sequence a completed outer loop hands on holds one batch for every
    pair of a descriptor and one of its suite names. *)
Lemma for_batches_appends (context : DataContext) (batches : list value) :
  forall acc t acc',
    for_batches' context batches acc = (t, Ok acc') ->
    List.length acc'
    = List.length acc
      + list_sum
          (map (fun b => List.length (suite_names_of obj_getitem obj_iter b))
             batches).
Proof.
  induction batches as [|batch rest IH]; intros acc t acc' H.
  - inversion H; subst. simpl. lia.
  - cbn [for_batches] in H.
    apply bind_Ok_inv in H as (t1 & names & t2 & Hnames & H & _).
    apply bind_Ok_inv in H as (t3 & [b accb] & t4 & Hinner & H & _).
    apply for_suite_names_appends in Hinner as (loaded & -> & Hlen & _).
    apply IH in H. cbn [snd] in H. rewrite H, length_app, Hlen.
    unfold lift in Hnames. inversion Hnames as [[Ht Hr]].
    cbn [map]. unfold suite_names_of at 2. rewrite Hr.
    change (list_sum (List.length names :: ?l))
      with (List.length names + list_sum l).
    lia.
Qed.

(** In the inner loop of [checkpoint_run], once the load for a suite
    name has succeeded the rest of the loop runs with [batch] bound to the
    loaded object, which has been appended to the sequence to dispatch; the
    next iteration therefore takes its [batch_kwargs] by indexing the
    loaded object, not the descriptor; and a loop that completes has
    appended one loaded batch per suite name. *)
Theorem inner_loop_rebinds_batch (context : DataContext)
  (suite_name : value) (rest : list value) (batch : value)
  (acc : list value) (t1 t2 : list event)
  (suite batch_kwargs loaded : value) :
  load_expectation_suite context suite_name = (t1, Ok suite) ->
  getitem obj_getitem batch "batch_kwargs" = Ok batch_kwargs ->
  toolkit_load_batch context suite batch_kwargs = (t2, Ok loaded) ->
  for_suite_names' context (suite_name :: rest) batch acc
  = after (t1 ++ load_batch_ev suite batch_kwargs :: t2)%list
      (for_suite_names' context rest loaded (acc ++ [loaded])%list)
  /\ (forall next rest' t3 suite',
         rest = next :: rest' ->
         load_expectation_suite context next = (t3, Ok suite') ->
         for_suite_names' context rest loaded (acc ++ [loaded])%list
         = after t3
             (kw <- lift (getitem obj_getitem loaded "batch_kwargs") ;;
              b <- load_batch_or_exit' context suite' kw loaded ;;
              for_suite_names' context rest' b
                ((acc ++ [loaded]) ++ [b])%list)%cmd)
  /\ (forall t batch' acc',
         for_suite_names' context (suite_name :: rest) batch acc
         = (t, Ok (batch', acc')) ->
         exists more,
           acc' = (acc ++ loaded :: more)%list
           /\ List.length more = List.length rest
           /\ batch' = last more loaded).
Proof.
  intros Hsuite Hkw Hload.
  assert (Hstep :
            for_suite_names' context (suite_name :: rest) batch acc
            = after (t1 ++ load_batch_ev suite batch_kwargs :: t2)%list
                (for_suite_names' context rest loaded (acc ++ [loaded])%list)).
  { cbn [for_suite_names]. rewrite Hsuite, bind_after.
    unfold lift. rewrite Hkw, bind_after.
    rewrite (load_batch_or_exit_Ok _ _ _ batch _ _ Hload), bind_after.
    rewrite !after_app, app_nil_r. reflexivity. }
  split; [exact Hstep|]. split.
  - intros next rest' t3 suite' -> Hnext.
    cbn [for_suite_names]. rewrite Hnext, bind_after. reflexivity.
  - intros t batch' acc' H. rewrite Hstep in H.
    destruct (for_suite_names' context rest loaded (acc ++ [loaded])%list)
      as [t' r] eqn:E.
    unfold after in H. simpl in H. inversion H; subst.
    apply for_suite_names_appends in E as (more & -> & Hlen & ->).
    exists more. rewrite <- app_assoc. auto.
Qed.

End Loops.

Lemma inner_loop_rebinds_batch_witness :
  for_suite_names TestProject.exc_subclass
    (TestProject.load_expectation_suite ["suite_one"; "suite_two"])
    (TestProject.load_batch ["data/Titanic.csv"]) TestProject.obj_getitem
    (TestProject.context [] [] true)
    [VStr "suite_one"; VStr "suite_two"]
    (TestProject.descriptor TestProject.titanic_csv ["suite_one"; "suite_two"])
    []
  = after
      [load_batch_ev (TestProject.suite_object "suite_one")
         (VDict TestProject.titanic_csv)]
      (for_suite_names TestProject.exc_subclass
         (TestProject.load_expectation_suite ["suite_one"; "suite_two"])
         (TestProject.load_batch ["data/Titanic.csv"]) TestProject.obj_getitem
         (TestProject.context [] [] true)
         [VStr "suite_two"]
         (TestProject.dataset_object "data/Titanic.csv")
         [TestProject.dataset_object "data/Titanic.csv"]).
Proof.
  exact (proj1
           (inner_loop_rebinds_batch TestProject.exc_subclass
              (TestProject.load_expectation_suite ["suite_one"; "suite_two"])
              (TestProject.load_batch ["data/Titanic.csv"])
              TestProject.obj_getitem
              (TestProject.context [] [] true)
              (VStr "suite_one") [VStr "suite_two"]
              (TestProject.descriptor TestProject.titanic_csv
                 ["suite_one"; "suite_two"])
              [] [] []
              (TestProject.suite_object "suite_one")
              (VDict TestProject.titanic_csv)
              (TestProject.dataset_object "data/Titanic.csv")
              eq_refl eq_refl eq_refl)).
Defined.

(** With two suites on one descriptor the second load never happens in the
    test project: the second iteration indexes the dataset loaded by the
    first, and a dataset has no such item. *)
Example two_suites_on_one_batch :
  TestProject.run_checkpoint
    [("my_checkpoint", TestProject.my_checkpoint)]
    ["suite_one"; "suite_two"] ["data/Titanic.csv"] ["action_list_operator"]
    true "my_checkpoint"
  = ([usage_message_ev "data_context.__init__" true;
      load_batch_ev (TestProject.suite_object "suite_one")
        (VDict TestProject.titanic_csv)],
     Raise (Exception KeyError "batch_kwargs")).
Proof. reflexivity. Qed.

(* ================================================================== *)
(** ** [checkpoint run] and [checkpoint list] in the test project *)


(** Whatever the project, [checkpoint list] that finds checkpoints sends no
    usage event of its own: the usage events of the run are those of loading
    the context and of listing. *)
Lemma checkpoint_list_usage_events
  (load_data_context_with_error_handling : option string -> M DataContext)
  (directory : option string) (context : DataContext)
  (t0 t1 : list event) (name : string) (names : list string) :
  load_data_context_with_error_handling directory = (t0, Ok context) ->
  list_checkpoints context = (t1, Ok (name :: names)) ->
  snd (checkpoint_list load_data_context_with_error_handling directory) = Ok tt
  /\ usage_events
       (fst (checkpoint_list load_data_context_with_error_handling directory))
     = usage_events (t0 ++ t1)%list.
Proof.
  intros H0 H1. unfold checkpoint_list. rewrite H0, bind_after, H1, bind_after.
  unfold after, bind, ret, cli_message_list, tell, usage_events. simpl.
  split; [reflexivity|].
  rewrite !filter_app. simpl. rewrite app_nil_r. reflexivity.
Qed.

(** C5. [checkpoint list] in a project with the one checkpoint
    [my_checkpoint] lists it and returns; the only usage event of the run is
    the one of the context's initialisation. *)
Theorem checkpoint_list_sends_no_usage_message :
  let r :=
    TestProject.list_checkpoints_cmd
      [("my_checkpoint", TestProject.my_checkpoint)] in
  r = ([usage_message_ev "data_context.__init__" true;
        cli_message_list_ev ["my_checkpoint"] "Found 1 checkpoint."],
       Ok tt)
  /\ usage_events (fst r) = [usage_message_ev "data_context.__init__" true].
Proof. repeat split. Qed.


(* ================================================================== *)
(** ** Instances of the batch-kwargs classes as dictionaries *)

Lemma setitem_fresh (d : Dict.t) (k : string) (v : value) :
  ~ In k (Dict.keys d) -> Dict.setitem d k v = (d ++ [(k, v)])%list.
Proof.
  unfold Dict.keys.
  induction d as [|[a b] rest IH]; simpl; intros Hk.
  - reflexivity.
  - destruct (String.eqb a k) eqn:E.
    + apply String.eqb_eq in E. tauto.
    + rewrite IH; [reflexivity|tauto].
Qed.

Lemma update_fresh (items : list (string * value)) :
  forall d,
    NoDup (Dict.keys d ++ map fst items) ->
    Dict.update d items = (d ++ items)%list.
Proof.
  unfold Dict.update, Dict.keys.
  induction items as [|[k v] items IH]; simpl; intros d Hnd.
  - rewrite app_nil_r. reflexivity.
  - rewrite setitem_fresh.
    + rewrite IH.
      * rewrite <- app_assoc. reflexivity.
      * rewrite map_app, <- app_assoc. exact Hnd.
    + apply NoDup_remove_2 in Hnd. intros Hin. apply Hnd.
      apply in_or_app. left. exact Hin.
Qed.

Lemma init_distinct (mapping : list (string * value)) :
  NoDup (map fst mapping) -> Dict.init mapping [] = mapping.
Proof.
  intros Hnd. unfold Dict.init. simpl. apply (update_fresh mapping []).
  exact Hnd.
Qed.

Lemma init_idempotent (mapping kwargs : list (string * value)) :
  Dict.init (Dict.init mapping kwargs) [] = Dict.init mapping kwargs.
Proof. apply init_distinct, wf_init. Qed.

Lemma lookup_keys (d : Dict.t) (k : string) :
  In k (Dict.keys d) <-> exists v, Dict.lookup d k = Some v.
Proof.
  unfold Dict.keys.
  induction d as [|[a b] rest IH]; simpl.
  - split; [contradiction|]. intros [v H]. discriminate.
  - destruct (String.eqb a k) eqn:E.
    + apply String.eqb_eq in E. split; eauto.
    + apply String.eqb_neq in E. rewrite <- IH. tauto.
Qed.

Lemma keys_init (mapping kwargs : list (string * value)) (k : string) :
  In k (Dict.keys (Dict.init mapping kwargs)) <-> has_key (mapping ++ kwargs) k.
Proof.
  rewrite lookup_keys, assoc_last_has_key.
  split; intros [v H]; exists v; rewrite lookup_init in *; exact H.
Qed.

(** What the checked constructors return when they return. *)
Lemma checked_init_Ok (key : string) (e : exn)
  (mapping kwargs : list (string * value)) (self : Dict.t) :
  (if negb (Dict.contains (Dict.init mapping kwargs) key)
   then Raise e else Ok (Dict.init mapping kwargs)) = Ok self ->
  self = Dict.init mapping kwargs /\ has_key (mapping ++ kwargs) key.
Proof.
  destruct (Dict.contains (Dict.init mapping kwargs) key) eqn:E; simpl;
    intros H; [|discriminate].
  inversion H; subst. split; [reflexivity|].
  apply contains_init. exact E.
Qed.

Lemma checked_init_again (key : string) (e : exn)
  (mapping kwargs : list (string * value)) :
  has_key (mapping ++ kwargs) key ->
  (if negb (Dict.contains
              (Dict.init (Dict.init mapping kwargs) []) key)
   then Raise e
   else Ok (Dict.init (Dict.init mapping kwargs) []))
  = Ok (Dict.init mapping kwargs).
Proof.
  intros Hk. rewrite init_idempotent.
  apply contains_init in Hk. rewrite Hk. reflexivity.
Qed.

Ltac unfold_inits :=
  unfold PathBatchKwargs.__init__, S3BatchKwargs.__init__,
    InMemoryBatchKwargs.__init__,
    SqlAlchemyDatasourceTableBatchKwargs.__init__,
    SqlAlchemyDatasourceQueryBatchKwargs.__init__,
    SparkDFDatasourceQueryBatchKwargs.__init__, BatchMarkers.__init__,
    PandasDatasourceBatchKwargs.__init__,
    SparkDFDatasourceBatchKwargs.__init__,
    SqlAlchemyDatasourceBatchKwargs.__init__, BatchKwargs.__init__ in *.

(** X1. A mapping with distinct keys that holds the required key is returned as
    it is, items in the order given, by each of the checked constructors. *)
Theorem construction_keeps_the_mapping (mapping : list (string * value)) :
  NoDup (map fst mapping) ->
  (has_key mapping "ge_load_time" ->
   BatchMarkers.__init__ mapping [] = Ok mapping)
  /\ (has_key mapping "path" -> PathBatchKwargs.__init__ mapping [] = Ok mapping)
  /\ (has_key mapping "s3" -> S3BatchKwargs.__init__ mapping [] = Ok mapping)
  /\ (has_key mapping "dataset" ->
      InMemoryBatchKwargs.__init__ mapping [] = Ok mapping)
  /\ (has_key mapping "table" ->
      SqlAlchemyDatasourceTableBatchKwargs.__init__ mapping [] = Ok mapping)
  /\ (has_key mapping "query" ->
      SqlAlchemyDatasourceQueryBatchKwargs.__init__ mapping [] = Ok mapping
      /\ SparkDFDatasourceQueryBatchKwargs.__init__ mapping [] = Ok mapping).
Proof.
  intros Hnd. unfold_inits. rewrite (init_distinct mapping Hnd).
  assert (H : forall key,
             has_key mapping key -> Dict.contains mapping key = true).
  { intros key Hk. rewrite <- (init_distinct mapping Hnd).
    apply contains_init. rewrite app_nil_r. exact Hk. }
  repeat match goal with |- _ /\ _ => split end;
    intros Hk; try split; rewrite (H _ Hk); reflexivity.
Qed.

Lemma construction_keeps_the_mapping_witness :
  PathBatchKwargs.__init__ TestProject.file_csv [] = Ok TestProject.file_csv.
Proof.
  refine (proj1 (proj2 (construction_keeps_the_mapping TestProject.file_csv _)) _).
  - repeat constructor; simpl; intuition discriminate.
  - left. reflexivity.
Defined.

Lemma instance_of_checked (init : constructor) (key : string) (e : exn) :
  (forall mapping kwargs,
      init mapping kwargs
      = if negb (Dict.contains (Dict.init mapping kwargs) key)
        then Raise e else Ok (Dict.init mapping kwargs)) ->
  forall mapping kwargs self,
    init mapping kwargs = Ok self -> instance_of init mapping kwargs self.
Proof.
  intros Hinit mapping kwargs self H. rewrite Hinit in H.
  apply checked_init_Ok in H as [-> Hk]. split; [apply wf_init|]. split.
  - intros k. apply keys_init.
  - rewrite Hinit. apply checked_init_again. exact Hk.
Qed.

(** X2. Every instance the checked constructors return is a dictionary of what
    it was given: no key twice, exactly the given keys, and constructing
    again from the instance gives the instance. *)
Theorem instances_are_dictionaries
  (mapping kwargs : list (string * value)) (self : Dict.t) :
  (BatchMarkers.__init__ mapping kwargs = Ok self ->
   instance_of BatchMarkers.__init__ mapping kwargs self)
  /\ (PathBatchKwargs.__init__ mapping kwargs = Ok self ->
      instance_of PathBatchKwargs.__init__ mapping kwargs self)
  /\ (S3BatchKwargs.__init__ mapping kwargs = Ok self ->
      instance_of S3BatchKwargs.__init__ mapping kwargs self)
  /\ (InMemoryBatchKwargs.__init__ mapping kwargs = Ok self ->
      instance_of InMemoryBatchKwargs.__init__ mapping kwargs self)
  /\ (SqlAlchemyDatasourceTableBatchKwargs.__init__ mapping kwargs = Ok self ->
      instance_of SqlAlchemyDatasourceTableBatchKwargs.__init__
        mapping kwargs self)
  /\ (SqlAlchemyDatasourceQueryBatchKwargs.__init__ mapping kwargs = Ok self ->
      instance_of SqlAlchemyDatasourceQueryBatchKwargs.__init__
        mapping kwargs self)
  /\ (SparkDFDatasourceQueryBatchKwargs.__init__ mapping kwargs = Ok self ->
      instance_of SparkDFDatasourceQueryBatchKwargs.__init__
        mapping kwargs self).
Proof.
  repeat match goal with |- _ /\ _ => split end;
    eapply instance_of_checked; intros; reflexivity.
Qed.

Lemma instances_are_dictionaries_witness :
  instance_of PathBatchKwargs.__init__
    [("path", VStr "a.csv"); ("reader_method", VStr "read_csv")]
    [("path", VStr "b.csv")]
    [("path", VStr "b.csv"); ("reader_method", VStr "read_csv")].
Proof.
  exact (proj1 (proj2
                  (instances_are_dictionaries
                     [("path", VStr "a.csv"); ("reader_method", VStr "read_csv")]
                     [("path", VStr "b.csv")]
                     [("path", VStr "b.csv"); ("reader_method", VStr "read_csv")]))
           eq_refl).
Defined.

Lemma assoc_last_init (mapping kwargs : list (string * value)) (k : string) :
  assoc_last (Dict.init mapping kwargs ++ []) k = assoc_last (mapping ++ kwargs) k.
Proof.
  rewrite <- (lookup_init (Dict.init mapping kwargs) []), init_idempotent.
  apply lookup_init.
Qed.

(** X3. An instance of an in-memory frame class is an [InMemoryBatchKwargs] whose
    [dataset] is a frame of the class's backend (and, for spark, only where
    pyspark can be imported); constructing again from it gives it back. *)
Theorem in_memory_instances_hold_a_frame (env : environment)
  (mapping kwargs : list (string * value)) (self : Dict.t) :
  (PandasDatasourceInMemoryBatchKwargs.__init__ mapping kwargs = Ok self ->
   InMemoryBatchKwargs.__init__ mapping kwargs = Ok self
   /\ isinstance (InMemoryBatchKwargs.dataset self) pd_DataFrame = true
   /\ instance_of PandasDatasourceInMemoryBatchKwargs.__init__
        mapping kwargs self)
  /\ (SparkDFDatasourceInMemoryBatchKwargs.__init__ env mapping kwargs
      = Ok self ->
      InMemoryBatchKwargs.__init__ mapping kwargs = Ok self
      /\ pyspark_importable env = true
      /\ isinstance (InMemoryBatchKwargs.dataset self) pyspark_sql_DataFrame
         = true
      /\ instance_of (SparkDFDatasourceInMemoryBatchKwargs.__init__ env)
           mapping kwargs self).
Proof.
  split.
  - rewrite pandas_in_memory_init, in_memory_init.
    destruct (assoc_last (mapping ++ kwargs) "dataset") as [v|] eqn:E;
      [|discriminate].
    destruct (isinstance v pd_DataFrame) eqn:Hv; [|discriminate].
    intros H. inversion H; subst. split; [reflexivity|]. split.
    + unfold InMemoryBatchKwargs.dataset, Dict.get.
      rewrite lookup_init, E. exact Hv.
    + split; [apply wf_init|]. split; [intros k; apply keys_init|].
      rewrite pandas_in_memory_init, assoc_last_init, E, Hv, init_idempotent.
      reflexivity.
  - rewrite spark_in_memory_init, in_memory_init.
    destruct (assoc_last (mapping ++ kwargs) "dataset") as [v|] eqn:E;
      [|discriminate].
    destruct (pyspark_importable env) eqn:Hp; [|discriminate].
    destruct (isinstance v pyspark_sql_DataFrame) eqn:Hv; [|discriminate].
    intros H. inversion H; subst. split; [reflexivity|].
    split; [reflexivity|]. split.
    + unfold InMemoryBatchKwargs.dataset, Dict.get.
      rewrite lookup_init, E. exact Hv.
    + split; [apply wf_init|]. split; [intros k; apply keys_init|].
      rewrite spark_in_memory_init, assoc_last_init, E, Hp, Hv,
        init_idempotent.
      reflexivity.
Qed.

Lemma in_memory_instances_hold_a_frame_witness :
  InMemoryBatchKwargs.__init__
    [("dataset", VObject [pyspark_sql_DataFrame; "object"] 1)] []
  = Ok [("dataset", VObject [pyspark_sql_DataFrame; "object"] 1)]
  /\ isinstance
       (InMemoryBatchKwargs.dataset
          [("dataset", VObject [pyspark_sql_DataFrame; "object"] 1)])
       pyspark_sql_DataFrame
     = true.
Proof.
  pose proof
    (proj2
       (in_memory_instances_hold_a_frame {| pyspark_importable := true |}
          [("dataset", VObject [pyspark_sql_DataFrame; "object"] 1)] []
          [("dataset", VObject [pyspark_sql_DataFrame; "object"] 1)])
       eq_refl) as H.
  split; [exact (proj1 H) | exact (proj1 (proj2 (proj2 H)))].
Defined.

(** X4. Which failure an in-memory frame class reports: a missing [dataset]
    before anything else, whatever the environment; then, for spark, a
    missing pyspark before the type of the dataset is looked at. *)
Theorem in_memory_failures_come_in_order (env : environment)
  (mapping kwargs : list (string * value)) :
  (~ has_key (mapping ++ kwargs) "dataset" ->
   PandasDatasourceInMemoryBatchKwargs.__init__ mapping kwargs
   = InMemoryBatchKwargs.__init__ mapping kwargs
   /\ SparkDFDatasourceInMemoryBatchKwargs.__init__ env mapping kwargs
      = InMemoryBatchKwargs.__init__ mapping kwargs
   /\ InMemoryBatchKwargs.__init__ mapping kwargs
      = Raise (Exception InvalidBatchKwargsError
                 "InMemoryBatchKwargs requires a 'dataset' element"))
  /\ (has_key (mapping ++ kwargs) "dataset" ->
      pyspark_importable env = false ->
      SparkDFDatasourceInMemoryBatchKwargs.__init__ env mapping kwargs
      = Raise (Exception InvalidBatchKwargsError
                 "SparkDFDatasourceInMemoryBatchKwargs requires a valid pyspark installation, but pyspark import failed.")).
Proof.
  rewrite pandas_in_memory_init, spark_in_memory_init, in_memory_init.
  split.
  - intros Hk. apply assoc_last_None in Hk. rewrite Hk. auto.
  - intros Hk Hp. apply assoc_last_has_key in Hk as [v Hv].
    rewrite Hv, Hp. reflexivity.
Qed.

Lemma in_memory_failures_come_in_order_witness :
  SparkDFDatasourceInMemoryBatchKwargs.__init__
    {| pyspark_importable := false |} [("dataset", VStr "not a frame")] []
  = Raise (Exception InvalidBatchKwargsError
             "SparkDFDatasourceInMemoryBatchKwargs requires a valid pyspark installation, but pyspark import failed.").
Proof.
  refine (proj2
            (in_memory_failures_come_in_order
               {| pyspark_importable := false |}
               [("dataset", VStr "not a frame")] []) _ eq_refl).
  left. reflexivity.
Defined.

(* ================================================================== *)
(** ** File names that end in [.py] *)

Lemma string_length_app (a b : string) :
  String.length (a ++ b) = String.length a + String.length b.
Proof. induction a as [|c a IH]; simpl; [reflexivity|]. rewrite IH. reflexivity. Qed.

Lemma substring_whole (s : string) : substring 0 (String.length s) s = s.
Proof. induction s as [|c s IH]; simpl; [reflexivity|]. rewrite IH. reflexivity. Qed.

Lemma substring_skip (p s : string) (m : nat) :
  substring (String.length p) m (p ++ s) = substring 0 m s.
Proof. induction p as [|c p IH]; simpl; [reflexivity|]. exact IH. Qed.

Lemma substring_split (s : string) :
  forall k,
    k <= String.length s ->
    s = substring 0 k s ++ substring k (String.length s - k) s.
Proof.
  induction s as [|c s IH]; intros k Hk.
  - simpl in Hk. assert (k = 0) by lia. subst k. reflexivity.
  - destruct k as [|k].
    + rewrite Nat.sub_0_r, substring_whole. reflexivity.
    + simpl in Hk. simpl. f_equal. apply IH. lia.
Qed.

(** [endswith] is Python's: the string is something followed by the
    suffix. *)
Lemma endswith_iff (s suffix : string) :
  endswith s suffix = true <-> exists stem, s = stem ++ suffix.
Proof.
  unfold endswith. rewrite andb_true_iff, Nat.leb_le, String.eqb_eq. split.
  - intros [Hle Hsub].
    exists (substring 0 (String.length s - String.length suffix) s).
    pose proof
      (substring_split s (String.length s - String.length suffix)) as Hs.
    replace (String.length s - (String.length s - String.length suffix))
      with (String.length suffix) in Hs by lia.
    rewrite Hsub in Hs. apply Hs. lia.
  - intros [stem ->]. rewrite string_length_app. split; [lia|].
    replace (String.length stem + String.length suffix - String.length suffix)
      with (String.length stem) by lia.
    rewrite substring_skip. apply substring_whole.
Qed.

(** X5. [_validate_checkpoint_filename] returns, silently, exactly for the names
    made of a stem followed by [.py]; for every other name it prints its
    message and exits with 1. *)
Theorem validate_checkpoint_filename_accepts_py (checkpoint_filename : string) :
  ((exists stem, checkpoint_filename = stem ++ ".py")
   <-> _validate_checkpoint_filename checkpoint_filename = ret tt)
  /\ ((~ exists stem, checkpoint_filename = stem ++ ".py")
      <-> _validate_checkpoint_filename checkpoint_filename
          = ([cli_message_ev
                "<red>Tap filename must end in .py. Please correct and re-run</red>"],
             Raise (SystemExit 1))).
Proof.
  rewrite <- endswith_iff. unfold _validate_checkpoint_filename.
  destruct (endswith checkpoint_filename ".py"); simpl; split; split;
    try reflexivity; try discriminate; try congruence; auto.
Qed.

(* ================================================================== *)
(** ** [checkpoint list] *)

Section ListProperties.

Variable load_data_context_with_error_handling : option string -> M DataContext.

Local Abbreviation checkpoint_list' :=
  (checkpoint_list load_data_context_with_error_handling).

(** X6. In a project without checkpoints [checkpoint list] prints
    "No checkpoints found." and exits with 0. *)
Theorem checkpoint_list_of_no_checkpoints (directory : option string)
  (context : DataContext) (t0 t1 : list event) :
  load_data_context_with_error_handling directory = (t0, Ok context) ->
  list_checkpoints context = (t1, Ok []) ->
  checkpoint_list' directory
  = ((t0 ++ t1 ++ [cli_message_ev "No checkpoints found."])%list,
     Raise (SystemExit 0)).
Proof.
  intros H0 H1. unfold checkpoint_list. rewrite H0, bind_after, H1, bind_after.
  unfold after. simpl. reflexivity.
Qed.

(** X7. In a project with checkpoints [checkpoint list] hands their names, in
    the order the context gives them, to [cli_message_list] under the line
    "Found n checkpoint(s)." and returns; the line says "checkpoint" for one
    and "checkpoints" for more. *)
Theorem checkpoint_list_of_some_checkpoints (directory : option string)
  (context : DataContext) (t0 t1 : list event)
  (name : string) (names : list string) :
  load_data_context_with_error_handling directory = (t0, Ok context) ->
  list_checkpoints context = (t1, Ok (name :: names)) ->
  checkpoint_list' directory
  = ((t0 ++ t1
        ++ [cli_message_list_ev (name :: names)
              ("Found "
                 ++ NilZero.string_of_uint (Nat.to_uint (S (List.length names)))
                 ++ " checkpoint"
                 ++ match names with [] => "" | _ => "s" end ++ ".")])%list,
     Ok tt).
Proof.
  intros H0 H1. unfold checkpoint_list. rewrite H0, bind_after, H1, bind_after.
  unfold after. cbn [bind ret fst snd app cli_message_list tell List.length].
  destruct names; reflexivity.
Qed.

End ListProperties.

Lemma checkpoint_list_of_no_checkpoints_witness :
  TestProject.list_checkpoints_cmd []
  = ([usage_message_ev "data_context.__init__" true;
      cli_message_ev "No checkpoints found."],
     Raise (SystemExit 0)).
Proof.
  exact (checkpoint_list_of_no_checkpoints
           (TestProject.load_data_context_with_error_handling
              (TestProject.context [] [] true))
           (Some "great_expectations") (TestProject.context [] [] true)
           [usage_message_ev "data_context.__init__" true] []
           eq_refl eq_refl).
Defined.

Lemma checkpoint_list_of_some_checkpoints_witness :
  TestProject.list_checkpoints_cmd
    [("my_checkpoint", TestProject.my_checkpoint);
     ("bad_batch", TestProject.bad_batch)]
  = ([usage_message_ev "data_context.__init__" true;
      cli_message_list_ev ["my_checkpoint"; "bad_batch"]
        "Found 2 checkpoints."],
     Ok tt).
Proof.
  exact (checkpoint_list_of_some_checkpoints
           (TestProject.load_data_context_with_error_handling
              (TestProject.context
                 [("my_checkpoint", TestProject.my_checkpoint);
                  ("bad_batch", TestProject.bad_batch)] [] true))
           (Some "great_expectations")
           (TestProject.context
              [("my_checkpoint", TestProject.my_checkpoint);
               ("bad_batch", TestProject.bad_batch)] [] true)
           [usage_message_ev "data_context.__init__" true] []
           "my_checkpoint" ["bad_batch"]
           eq_refl eq_refl).
Defined.

(* ================================================================== *)
(** ** [checkpoint new] *)

Lemma after_nil {A} (m : M A) : after [] m = m.
Proof. destruct m. reflexivity. Qed.

Lemma after_pair {A} (t t' : list event) (r : result A) :
  after t (t', r) = ((t ++ t')%list, r).
Proof. reflexivity. Qed.

Ltac run_step H := rewrite H, ?bind_after.
Ltac run_done :=
  rewrite ?after_app;
  unfold cli_message, cli_message_list, send_usage_message, sys_exit;
  unfold bind, ret, raise, lift, tell;
  unfold after; cbn [fst snd app];
  rewrite <- ?app_assoc; cbn [app]; rewrite ?app_nil_r;
  try reflexivity.

Section NewProperties.

Variable load_data_context_with_error_handling : option string -> M DataContext.
Variable load_expectation_suite : DataContext -> value -> M value.
Variable root_directory : DataContext -> string.
Variable select_datasource : DataContext -> value -> M value.
Variable get_batch_kwargs :
  DataContext -> value -> M (value * value * value * value).
Variable obj_getattr : value -> string -> result value.
Variable obj_truthy : value -> bool.
Variable os_path_abspath : string -> string.
Variable os_path_join : list string -> string.
Variable file_relative_path : string -> string -> string.
Variable module_file : string.
Variable read_file : string -> M string.
Variable write_file : string -> string -> M unit.
Variable str_format : string -> list value -> result string.
Variable lint_code : string -> M string.

Local Abbreviation checkpoint_new' :=
  (checkpoint_new load_data_context_with_error_handling
     load_expectation_suite root_directory select_datasource get_batch_kwargs
     obj_getattr obj_truthy os_path_abspath os_path_join file_relative_path
     module_file read_file write_file str_format lint_code).
Local Abbreviation checkpoint_new_try' :=
  (_checkpoint_new_try load_expectation_suite root_directory
     select_datasource get_batch_kwargs obj_getattr obj_truthy os_path_abspath
     os_path_join file_relative_path module_file read_file write_file
     str_format lint_code).
Local Abbreviation write_tap_file_to_disk' :=
  (_write_tap_file_to_disk obj_getattr os_path_abspath os_path_join
     file_relative_path module_file read_file write_file str_format lint_code).

(** X8. A file name that does not end in [.py] stops [checkpoint new] right
    after the context is loaded: the message is printed, the command exits
    with 1, and no usage event is sent, the exit not being an [Exception]. *)
Theorem checkpoint_new_refuses_other_file_names (suite : value)
  (checkpoint_filename : string) (directory : option string)
  (datasource : value) (context : DataContext) (t0 : list event) :
  load_data_context_with_error_handling directory = (t0, Ok context) ->
  endswith checkpoint_filename ".py" = false ->
  checkpoint_new' suite checkpoint_filename directory datasource
  = ((t0 ++ [cli_message_ev
               "<red>Tap filename must end in .py. Please correct and re-run</red>"])%list,
     Raise (SystemExit 1)).
Proof.
  intros H0 Hpy. unfold checkpoint_new, _checkpoint_new. run_step H0.
  unfold _checkpoint_new_try, _validate_checkpoint_filename. rewrite Hpy.
  run_done.
Qed.

(** X9. When no datasource is selected [checkpoint new] prints
    "No datasources found in the context.", exits with 1 and sends no usage
    event; no suite is loaded and nothing is written. *)
Theorem checkpoint_new_without_datasource (suite : value)
  (checkpoint_filename : string) (directory : option string)
  (datasource selected : value) (context : DataContext)
  (t0 t1 : list event) :
  load_data_context_with_error_handling directory = (t0, Ok context) ->
  endswith checkpoint_filename ".py" = true ->
  select_datasource context datasource = (t1, Ok selected) ->
  truthy obj_truthy selected = false ->
  checkpoint_new' suite checkpoint_filename directory datasource
  = ((t0 ++ t1
        ++ [cli_message_ev "<red>No datasources found in the context.</red>"])%list,
     Raise (SystemExit 1)).
Proof.
  intros H0 Hpy Hsel Hfalse. unfold checkpoint_new, _checkpoint_new.
  run_step H0.
  unfold _checkpoint_new_try, _validate_checkpoint_filename, _get_datasource.
  rewrite Hpy. cbn [negb]. unfold ret at 1. rewrite bind_after, after_nil.
  run_step Hsel. rewrite Hfalse. run_done.
Qed.

(** X10. How [checkpoint new] ends follows the block under its [try]: an
    exception of the block is raised again after one failure usage event, an
    exit of the block passes without any, and when the block returns the
    command returns. *)
Theorem checkpoint_new_reports_exceptions (suite : value)
  (checkpoint_filename : string) (directory : option string)
  (datasource : value) (context : DataContext) (t0 t : list event) :
  load_data_context_with_error_handling directory = (t0, Ok context) ->
  (forall cls msg,
      checkpoint_new_try' context suite checkpoint_filename
        "cli.checkpoint.new" datasource
      = (t, Raise (Exception cls msg)) ->
      checkpoint_new' suite checkpoint_filename directory datasource
      = ((t0 ++ t ++ [usage_message_ev "cli.checkpoint.new" false])%list,
         Raise (Exception cls msg)))
  /\ (forall code,
         checkpoint_new_try' context suite checkpoint_filename
           "cli.checkpoint.new" datasource
         = (t, Raise (SystemExit code)) ->
         checkpoint_new' suite checkpoint_filename directory datasource
         = ((t0 ++ t)%list, Raise (SystemExit code)))
  /\ (checkpoint_new_try' context suite checkpoint_filename
        "cli.checkpoint.new" datasource
      = (t, Ok tt) ->
      checkpoint_new' suite checkpoint_filename directory datasource
      = ((t0 ++ t)%list, Ok tt)).
Proof.
  intros H0. unfold checkpoint_new, _checkpoint_new. run_step H0.
  repeat split; intros; match goal with H : _ = (t, _) |- _ => rewrite H end;
    unfold try_except_Exception; run_done.
Qed.

(** The file [_write_tap_file_to_disk] reports is the one named after the
    checkpoint, one level above the project directory. *)
Lemma write_tap_file_to_disk_path (batch_kwargs : value)
  (context_directory : string) (suite : value) (checkpoint_filename : string)
  (t : list event) (path : string) :
  write_tap_file_to_disk' batch_kwargs context_directory suite
    checkpoint_filename = (t, Ok path) ->
  path = os_path_abspath
           (os_path_join [context_directory; ".."; checkpoint_filename]).
Proof.
  unfold _write_tap_file_to_disk. intros H.
  apply bind_Ok_inv in H as (? & ? & ? & _ & H & _).
  apply bind_Ok_inv in H as (? & ? & ? & _ & H & _).
  apply bind_Ok_inv in H as (? & ? & ? & _ & H & _).
  apply bind_Ok_inv in H as (? & ? & ? & _ & H & _).
  apply bind_Ok_inv in H as (? & ? & ? & _ & H & _).
  inversion H. reflexivity.
Qed.

(** X11. When every step succeeds [checkpoint new] selects the datasource, loads
    the suite, asks for batch kwargs under the datasource's name, writes the
    file, prints where it is, sends one success usage event and returns. *)
Theorem checkpoint_new_of_a_suite (suite : value)
  (checkpoint_filename : string) (directory : option string)
  (datasource selected loaded_suite datasource_name : value)
  (generated : value * value * value * value) (path : string)
  (context : DataContext) (t0 t1 t2 t3 t4 : list event) :
  load_data_context_with_error_handling directory = (t0, Ok context) ->
  endswith checkpoint_filename ".py" = true ->
  select_datasource context datasource = (t1, Ok selected) ->
  truthy obj_truthy selected = true ->
  load_expectation_suite context suite = (t2, Ok loaded_suite) ->
  getattr obj_getattr selected "name" = Ok datasource_name ->
  get_batch_kwargs context datasource_name = (t3, Ok generated) ->
  write_tap_file_to_disk' (snd generated) (root_directory context)
    loaded_suite checkpoint_filename = (t4, Ok path) ->
  path = os_path_abspath
           (os_path_join [root_directory context; ".."; checkpoint_filename])
  /\ checkpoint_new' suite checkpoint_filename directory datasource
     = ((t0 ++ t1 ++ t2 ++ t3 ++ t4
           ++ [cli_message_ev
                 ("<green>A new checkpoint has been generated!</green>
To run this checkpoint, run: <green>python " ++ path
                    ++ "</green>
You can edit this script or place this code snippet in your pipeline.");
               usage_message_ev "cli.checkpoint.new" true])%list,
        Ok tt).
Proof.
  intros H0 Hpy Hsel Htrue Hsuite Hname Hkw Hwrite.
  split; [eapply write_tap_file_to_disk_path; exact Hwrite|].
  unfold checkpoint_new, _checkpoint_new. run_step H0.
  unfold _checkpoint_new_try, _validate_checkpoint_filename, _get_datasource.
  rewrite Hpy. cbn [negb]. unfold ret at 1. rewrite bind_after, after_nil.
  run_step Hsel. rewrite Htrue. cbn [negb]. unfold ret at 1.
  rewrite after_pair, bind_after.
  run_step Hsuite. unfold lift. run_step Hname. run_step Hkw.
  run_step Hwrite. unfold try_except_Exception. run_done.
Qed.

End NewProperties.

Lemma checkpoint_new_refuses_other_file_names_witness :
  NewCheckpoint.new_checkpoint ["bar"] ["mydatasource"] "bar" "tap.txt"
  = ([usage_message_ev "data_context.__init__" true;
      cli_message_ev
        "<red>Tap filename must end in .py. Please correct and re-run</red>"],
     Raise (SystemExit 1)).
Proof.
  exact (checkpoint_new_refuses_other_file_names
           (TestProject.load_data_context_with_error_handling
              (TestProject.context [] [] true))
           (TestProject.load_expectation_suite ["bar"])
           NewCheckpoint.root_directory
           (NewCheckpoint.select_datasource ["mydatasource"])
           NewCheckpoint.get_batch_kwargs NewCheckpoint.obj_getattr
           TestProject.obj_truthy NewCheckpoint.os_path_abspath
           NewCheckpoint.os_path_join NewCheckpoint.file_relative_path
           "checkpoint.py" NewCheckpoint.read_file NewCheckpoint.write_file
           NewCheckpoint.str_format NewCheckpoint.lint_code
           (VStr "bar") "tap.txt" (Some "great_expectations") VNone
           (TestProject.context [] [] true)
           [usage_message_ev "data_context.__init__" true]
           eq_refl eq_refl).
Defined.

Lemma checkpoint_new_without_datasource_witness :
  NewCheckpoint.new_checkpoint ["bar"] [] "bar" "tap.py"
  = ([usage_message_ev "data_context.__init__" true;
      cli_message_ev "<red>No datasources found in the context.</red>"],
     Raise (SystemExit 1)).
Proof.
  exact (checkpoint_new_without_datasource
           (TestProject.load_data_context_with_error_handling
              (TestProject.context [] [] true))
           (TestProject.load_expectation_suite ["bar"])
           NewCheckpoint.root_directory
           (NewCheckpoint.select_datasource [])
           NewCheckpoint.get_batch_kwargs NewCheckpoint.obj_getattr
           TestProject.obj_truthy NewCheckpoint.os_path_abspath
           NewCheckpoint.os_path_join NewCheckpoint.file_relative_path
           "checkpoint.py" NewCheckpoint.read_file NewCheckpoint.write_file
           NewCheckpoint.str_format NewCheckpoint.lint_code
           (VStr "bar") "tap.py" (Some "great_expectations") VNone VNone
           (TestProject.context [] [] true)
           [usage_message_ev "data_context.__init__" true] []
           eq_refl eq_refl eq_refl eq_refl).
Defined.

Lemma checkpoint_new_reports_exceptions_witness :
  checkpoint_new
    (TestProject.load_data_context_with_error_handling
       (TestProject.context [] [] true))
    (fun _ _ => raise (Exception DataContextError "expectation suite bar not found"))
    NewCheckpoint.root_directory
    (NewCheckpoint.select_datasource ["mydatasource"])
    NewCheckpoint.get_batch_kwargs NewCheckpoint.obj_getattr
    TestProject.obj_truthy NewCheckpoint.os_path_abspath
    NewCheckpoint.os_path_join NewCheckpoint.file_relative_path
    "checkpoint.py" NewCheckpoint.read_file NewCheckpoint.write_file
    NewCheckpoint.str_format NewCheckpoint.lint_code
    (VStr "bar") "tap.py" (Some "great_expectations") VNone
  = ([usage_message_ev "data_context.__init__" true;
      usage_message_ev "cli.checkpoint.new" false],
     Raise (Exception DataContextError "expectation suite bar not found")).
Proof.
  exact (proj1
           (checkpoint_new_reports_exceptions
              (TestProject.load_data_context_with_error_handling
                 (TestProject.context [] [] true))
              (fun _ _ =>
                 raise (Exception DataContextError
                          "expectation suite bar not found"))
              NewCheckpoint.root_directory
              (NewCheckpoint.select_datasource ["mydatasource"])
              NewCheckpoint.get_batch_kwargs NewCheckpoint.obj_getattr
              TestProject.obj_truthy NewCheckpoint.os_path_abspath
              NewCheckpoint.os_path_join NewCheckpoint.file_relative_path
              "checkpoint.py" NewCheckpoint.read_file NewCheckpoint.write_file
              NewCheckpoint.str_format NewCheckpoint.lint_code
              (VStr "bar") "tap.py" (Some "great_expectations") VNone
              (TestProject.context [] [] true)
              [usage_message_ev "data_context.__init__" true] []
              eq_refl)
           DataContextError "expectation suite bar not found" eq_refl).
Defined.

Lemma checkpoint_new_of_a_suite_witness :
  NewCheckpoint.new_checkpoint ["bar"] ["mydatasource"] "bar" "tap.py"
  = ([usage_message_ev "data_context.__init__" true;
      cli_message_ev
        "<green>A new checkpoint has been generated!</green>
To run this checkpoint, run: <green>python /project/great_expectations/../tap.py</green>
You can edit this script or place this code snippet in your pipeline.";
      usage_message_ev "cli.checkpoint.new" true],
     Ok tt).
Proof.
  exact (proj2
           (checkpoint_new_of_a_suite
              (TestProject.load_data_context_with_error_handling
                 (TestProject.context [] [] true))
              (TestProject.load_expectation_suite ["bar"])
              NewCheckpoint.root_directory
              (NewCheckpoint.select_datasource ["mydatasource"])
              NewCheckpoint.get_batch_kwargs NewCheckpoint.obj_getattr
              TestProject.obj_truthy NewCheckpoint.os_path_abspath
              NewCheckpoint.os_path_join NewCheckpoint.file_relative_path
              "checkpoint.py" NewCheckpoint.read_file NewCheckpoint.write_file
              NewCheckpoint.str_format NewCheckpoint.lint_code
              (VStr "bar") "tap.py" (Some "great_expectations") VNone
              NewCheckpoint.datasource_object (TestProject.suite_object "bar")
              (VStr "mydatasource")
              (VStr "mydatasource", VNone, VStr "Titanic",
               VDict TestProject.titanic_csv)
              "/project/great_expectations/../tap.py"
              (TestProject.context [] [] true)
              [usage_message_ev "data_context.__init__" true] [] [] [] []
              eq_refl eq_refl eq_refl eq_refl eq_refl eq_refl eq_refl eq_refl)).
Defined.

(* ================================================================== *)
(** ** [checkpoint run] *)

Lemma bind_raise_cong {A B} (m : M A) (k k' : A -> M B)
  (t : list event) (e : exn) :
  (forall a t', k a = (t', Raise e) -> k' a = (t', Raise e)) ->
  bind m k = (t, Raise e) -> bind m k' = (t, Raise e).
Proof.
  intros Hk. unfold bind. destruct m as [t1 [a|e1]]; [|auto].
  destruct (k a) as [t2 r] eqn:E. intros H. inversion H; subst.
  rewrite (Hk a t2 E). reflexivity.
Qed.

Section RunProperties.

Variable exc_subclass : exc_class -> exc_class -> bool.
Variable load_data_context_with_error_handling : option string -> M DataContext.
Variable load_expectation_suite : DataContext -> value -> M value.
Variable toolkit_load_batch : DataContext -> value -> value -> M value.
Variable obj_getitem : value -> string -> result value.
Variable obj_iter : value -> result (list value).
Variable obj_truthy : value -> bool.

Local Abbreviation checkpoint_run' :=
  (checkpoint_run exc_subclass load_data_context_with_error_handling
     load_expectation_suite toolkit_load_batch obj_getitem obj_iter
     obj_truthy).
Local Abbreviation for_suite_names' :=
  (for_suite_names exc_subclass load_expectation_suite toolkit_load_batch
     obj_getitem).
Local Abbreviation for_batches' :=
  (for_batches exc_subclass load_expectation_suite toolkit_load_batch
     obj_getitem obj_iter).

(** X12. A checkpoint the context does not find: [checkpoint run] prints where
    to look, sends one failure usage event (under the event name the command
    uses, [cli.checkpoint.list]) and exits with 1; nothing is loaded and no
    operator runs. *)
Theorem checkpoint_run_of_a_missing_checkpoint (checkpoint : string)
  (directory : option string) (context : DataContext)
  (t0 t1 : list event) (msg : string) :
  load_data_context_with_error_handling directory = (t0, Ok context) ->
  get_checkpoint context checkpoint
  = (t1, Raise (Exception CheckpointNotFoundError msg)) ->
  checkpoint_run' checkpoint directory
  = ((t0 ++ t1
        ++ [cli_message_ev
              ("<red>Could not find checkpoint `" ++ checkpoint
                 ++ "`.</red> Try running:
  - `<green>great_expectations checkpoint list</green>` to verify your checkpoint exists
  - `<green>great_expectations checkpoint new</green>` to configure a new checkpoint");
            usage_message_ev "cli.checkpoint.list" false])%list,
     Raise (SystemExit 1)).
Proof.
  intros H0 H1. unfold checkpoint_run. run_step H0.
  unfold try_except. rewrite H1. cbn [handle exn_matches].
  destruct (exc_class_eq_dec CheckpointNotFoundError CheckpointNotFoundError);
    [|congruence].
  unfold _exit_with_failure_message. run_done.
Qed.

(** X13. Any other exception of [get_checkpoint]: one that the second clause
    catches has its message printed in red, followed by one failure usage
    event and exit 1; one that no clause catches leaves the command as it
    is, with nothing printed and no event. *)
Theorem checkpoint_run_of_a_broken_checkpoint (checkpoint : string)
  (directory : option string) (context : DataContext)
  (t0 t1 : list event) (e : exn) :
  load_data_context_with_error_handling directory = (t0, Ok context) ->
  get_checkpoint context checkpoint = (t1, Raise e) ->
  exn_matches exc_subclass e CheckpointNotFoundError = false ->
  (exn_matches exc_subclass e CheckpointError = true ->
   checkpoint_run' checkpoint directory
   = ((t0 ++ t1
         ++ [cli_message_ev ("<red>" ++ str_exn e ++ "</red>");
             usage_message_ev "cli.checkpoint.list" false])%list,
      Raise (SystemExit 1)))
  /\ (exn_matches exc_subclass e CheckpointError = false ->
      checkpoint_run' checkpoint directory = ((t0 ++ t1)%list, Raise e)).
Proof.
  intros H0 H1 Hnf. unfold checkpoint_run. run_step H0.
  unfold try_except. rewrite H1. cbn [handle]. rewrite Hnf.
  split; intros Hc; rewrite Hc.
  - unfold _exit_with_failure_message. run_done.
  - run_done.
Qed.

(** X14. A checkpoint whose batches all load: the operator named in the
    checkpoint is called once, with the loaded batches in order; then the
    command prints "Validation Succeeded!" and exits with 0 when the result's
    [success] is true, prints "Validation Failed!" and exits with 1 when it
    is not, and in both cases sends one usage event that reports success. *)
Theorem checkpoint_run_reports_the_validation (checkpoint : string)
  (directory : option string) (context : DataContext)
  (checkpoint_config validation_operator_name results success : value)
  (batches batches_to_validate : list value) (t0 t1 t2 t3 : list event) :
  load_data_context_with_error_handling directory = (t0, Ok context) ->
  get_checkpoint context checkpoint = (t1, Ok checkpoint_config) ->
  (let* b := getitem obj_getitem checkpoint_config "batches" in
   iter obj_iter b)%result = Ok batches ->
  for_batches' context batches [] = (t2, Ok batches_to_validate) ->
  getitem obj_getitem checkpoint_config "validation_operator_name"
  = Ok validation_operator_name ->
  run_validation_operator context validation_operator_name batches_to_validate
  = (t3, Ok results) ->
  getitem obj_getitem results "success" = Ok success ->
  checkpoint_run' checkpoint directory
  = ((t0 ++ t1 ++ t2
        ++ run_validation_operator_ev validation_operator_name
             batches_to_validate
        :: t3
        ++ [cli_message_ev
              (if truthy obj_truthy success then "Validation Succeeded!"
               else "Validation Failed!");
            usage_message_ev "cli.checkpoint.list" true])%list,
     Raise (SystemExit (if truthy obj_truthy success then 0 else 1)%Z)).
Proof.
  intros H0 H1 Hb Hloop Hname Hrun Hsuccess.
  unfold checkpoint_run. run_step H0.
  unfold try_except. run_step H1.
  unfold lift at 1. run_step Hb. run_step Hloop.
  unfold lift at 1. run_step Hname.
  unfold tell at 1. rewrite bind_after, Hrun, after_pair, bind_after.
  unfold lift at 1. run_step Hsuccess.
  destruct (truthy obj_truthy success); cbn [negb]; run_done.
Qed.

(** X15. [checkpoint run] never returns: it ends in [sys.exit] or in an
    exception. *)
Theorem checkpoint_run_never_returns (checkpoint : string)
  (directory : option string) :
  snd (checkpoint_run exc_subclass load_data_context_with_error_handling
         load_expectation_suite toolkit_load_batch obj_getitem obj_iter
         obj_truthy checkpoint directory)
  <> Ok tt.
Proof.
  destruct (checkpoint_run' checkpoint directory) as [t r] eqn:E.
  cbn [snd]. intros ->. unfold checkpoint_run in E.
  apply bind_Ok_inv in E as (? & context & ? & _ & E & _).
  apply bind_Ok_inv in E as (? & config & ? & _ & E & _).
  apply bind_Ok_inv in E as (? & batches & ? & _ & E & _).
  apply bind_Ok_inv in E as (? & loaded & ? & _ & E & _).
  apply bind_Ok_inv in E as (? & name & ? & _ & E & _).
  apply bind_Ok_inv in E as (? & results & ? & _ & E & _).
  apply bind_Ok_inv in E as (? & success & ? & _ & E & _).
  destruct (negb (truthy obj_truthy success)); discriminate E.
Qed.

Lemma for_suite_names_fails_fast (context : DataContext)
  (suite_names : list value) :
  forall (more : list value) (batch : value) (acc : list value)
         (t : list event) (e : exn),
    for_suite_names' context suite_names batch acc = (t, Raise e) ->
    for_suite_names' context (suite_names ++ more) batch acc = (t, Raise e).
Proof.
  induction suite_names as [|suite_name rest IH]; intros more batch acc t e H.
  - discriminate H.
  - cbn [for_suite_names app] in *.
    revert H. apply bind_raise_cong. intros suite t1.
    apply bind_raise_cong. intros kw t2.
    apply bind_raise_cong. intros b t3.
    apply IH.
Qed.

Lemma for_batches_fails_fast (context : DataContext) (batches : list value) :
  forall (more : list value) (acc : list value) (t : list event) (e : exn),
    for_batches' context batches acc = (t, Raise e) ->
    for_batches' context (batches ++ more) acc = (t, Raise e).
Proof.
  induction batches as [|batch rest IH]; intros more acc t e H.
  - discriminate H.
  - cbn [for_batches app] in *.
    revert H. apply bind_raise_cong. intros names t1.
    apply bind_raise_cong. intros r t2.
    apply IH.
Qed.

(** X16. The loops of [checkpoint_run] stop at the first failure: a run of the
    inner or of the outer loop that ends in an exception ends in the same
    exception, after the same calls, whatever suite names or batches
    follow. *)
Theorem checkpoint_loops_fail_fast (context : DataContext)
  (suite_names batches more : list value) (batch : value) (acc : list value)
  (t : list event) (e : exn) :
  (for_suite_names' context suite_names batch acc = (t, Raise e) ->
   for_suite_names' context (suite_names ++ more) batch acc = (t, Raise e))
  /\ (for_batches' context batches acc = (t, Raise e) ->
      for_batches' context (batches ++ more) acc = (t, Raise e)).
Proof.
  split; [apply for_suite_names_fails_fast | apply for_batches_fails_fast].
Qed.

End RunProperties.

Lemma checkpoint_run_of_a_missing_checkpoint_witness :
  TestProject.run_checkpoint [] [] [] [] true "fake_checkpoint"
  = ([usage_message_ev "data_context.__init__" true;
      cli_message_ev
        "<red>Could not find checkpoint `fake_checkpoint`.</red> Try running:
  - `<green>great_expectations checkpoint list</green>` to verify your checkpoint exists
  - `<green>great_expectations checkpoint new</green>` to configure a new checkpoint";
      usage_message_ev "cli.checkpoint.list" false],
     Raise (SystemExit 1)).
Proof.
  exact (checkpoint_run_of_a_missing_checkpoint TestProject.exc_subclass
           (TestProject.load_data_context_with_error_handling
              (TestProject.context [] [] true))
           (TestProject.load_expectation_suite [])
           (TestProject.load_batch []) TestProject.obj_getitem
           TestProject.obj_iter TestProject.obj_truthy
           "fake_checkpoint" (Some "great_expectations")
           (TestProject.context [] [] true)
           [usage_message_ev "data_context.__init__" true] []
           "Could not find checkpoint `fake_checkpoint`."
           eq_refl eq_refl).
Defined.

Lemma checkpoint_run_of_a_broken_checkpoint_witness :
  checkpoint_run TestProject.exc_subclass
    (fun _ =>
       ret {| get_checkpoint := fun _ =>
                raise (Exception CheckpointError
                         "Checkpoint `bad` is missing a validation_operator_name");
              list_checkpoints := ret ["bad"];
              run_validation_operator := fun _ _ => ret VNone |})
    (TestProject.load_expectation_suite [])
    (TestProject.load_batch []) TestProject.obj_getitem
    TestProject.obj_iter TestProject.obj_truthy "bad" None
  = ([cli_message_ev
        "<red>Checkpoint `bad` is missing a validation_operator_name</red>";
      usage_message_ev "cli.checkpoint.list" false],
     Raise (SystemExit 1)).
Proof.
  exact (proj1
           (checkpoint_run_of_a_broken_checkpoint TestProject.exc_subclass
              (fun _ =>
                 ret {| get_checkpoint := fun _ =>
                          raise (Exception CheckpointError
                                   "Checkpoint `bad` is missing a validation_operator_name");
                        list_checkpoints := ret ["bad"];
                        run_validation_operator := fun _ _ => ret VNone |})
              (TestProject.load_expectation_suite [])
              (TestProject.load_batch []) TestProject.obj_getitem
              TestProject.obj_iter TestProject.obj_truthy "bad" None
              {| get_checkpoint := fun _ =>
                   raise (Exception CheckpointError
                            "Checkpoint `bad` is missing a validation_operator_name");
                 list_checkpoints := ret ["bad"];
                 run_validation_operator := fun _ _ => ret VNone |}
              [] []
              (Exception CheckpointError
                 "Checkpoint `bad` is missing a validation_operator_name")
              eq_refl eq_refl eq_refl)
           eq_refl).
Defined.

Lemma checkpoint_run_reports_the_validation_witness :
  TestProject.run_checkpoint
    [("iceberg", TestProject.checkpoint_config "action_list_operator"
                   [TestProject.descriptor TestProject.titanic_csv ["iceberg"]])]
    ["iceberg"] ["data/Titanic.csv"] ["action_list_operator"] false "iceberg"
  = ([usage_message_ev "data_context.__init__" true;
      load_batch_ev (TestProject.suite_object "iceberg")
        (VDict TestProject.titanic_csv);
      run_validation_operator_ev (VStr "action_list_operator")
        [TestProject.dataset_object "data/Titanic.csv"];
      cli_message_ev "Validation Failed!";
      usage_message_ev "cli.checkpoint.list" true],
     Raise (SystemExit 1)).
Proof.
  exact (checkpoint_run_reports_the_validation TestProject.exc_subclass
           (TestProject.load_data_context_with_error_handling
              (TestProject.context
                 [("iceberg",
                   TestProject.checkpoint_config "action_list_operator"
                     [TestProject.descriptor TestProject.titanic_csv
                        ["iceberg"]])]
                 ["action_list_operator"] false))
           (TestProject.load_expectation_suite ["iceberg"])
           (TestProject.load_batch ["data/Titanic.csv"])
           TestProject.obj_getitem TestProject.obj_iter TestProject.obj_truthy
           "iceberg" (Some "great_expectations")
           (TestProject.context
              [("iceberg",
                TestProject.checkpoint_config "action_list_operator"
                  [TestProject.descriptor TestProject.titanic_csv ["iceberg"]])]
              ["action_list_operator"] false)
           (TestProject.checkpoint_config "action_list_operator"
              [TestProject.descriptor TestProject.titanic_csv ["iceberg"]])
           (VStr "action_list_operator")
           (VDict [("success", VBool false)]) (VBool false)
           [TestProject.descriptor TestProject.titanic_csv ["iceberg"]]
           [TestProject.dataset_object "data/Titanic.csv"]
           [usage_message_ev "data_context.__init__" true] []
           [load_batch_ev (TestProject.suite_object "iceberg")
              (VDict TestProject.titanic_csv)]
           []
           eq_refl eq_refl eq_refl eq_refl eq_refl eq_refl eq_refl).
Defined.

Lemma checkpoint_loops_fail_fast_witness :
  for_batches TestProject.exc_subclass
    (TestProject.load_expectation_suite ["bar"]) (TestProject.load_batch [])
    TestProject.obj_getitem TestProject.obj_iter
    (TestProject.context [] [] true)
    ([TestProject.descriptor TestProject.file_csv ["bar"]]
       ++ [TestProject.descriptor TestProject.titanic_csv ["bar"]])
    []
  = ([load_batch_ev (TestProject.suite_object "bar")
        (VDict TestProject.file_csv)],
     Raise (Exception (OtherError "FileNotFoundError")
              "[Errno 2] No such file or directory: '/totally/not/a/file.csv'")).
Proof.
  exact (proj2
           (checkpoint_loops_fail_fast TestProject.exc_subclass
              (TestProject.load_expectation_suite ["bar"])
              (TestProject.load_batch []) TestProject.obj_getitem
              TestProject.obj_iter (TestProject.context [] [] true)
              []
              [TestProject.descriptor TestProject.file_csv ["bar"]]
              [TestProject.descriptor TestProject.titanic_csv ["bar"]]
              VNone []
              [load_batch_ev (TestProject.suite_object "bar")
                 (VDict TestProject.file_csv)]
              (Exception (OtherError "FileNotFoundError")
                 "[Errno 2] No such file or directory: '/totally/not/a/file.csv'"))
           eq_refl).
Defined.

Lemma for_batches_appends_witness :
  List.length
    [TestProject.dataset_object "data/Titanic.csv";
     TestProject.dataset_object "data/Titanic.csv"]
  = List.length (@nil value)
    + list_sum
        (map
           (fun b =>
              List.length
                (suite_names_of TestProject.obj_getitem TestProject.obj_iter b))
           [TestProject.descriptor TestProject.titanic_csv ["a"];
            TestProject.descriptor TestProject.titanic_csv [];
            TestProject.descriptor TestProject.titanic_csv ["b"]]).
Proof.
  exact (for_batches_appends TestProject.exc_subclass
           (TestProject.load_expectation_suite ["a"; "b"])
           (TestProject.load_batch ["data/Titanic.csv"])
           TestProject.obj_getitem TestProject.obj_iter
           (TestProject.context [] [] true)
           [TestProject.descriptor TestProject.titanic_csv ["a"];
            TestProject.descriptor TestProject.titanic_csv [];
            TestProject.descriptor TestProject.titanic_csv ["b"]]
           []
           [load_batch_ev (TestProject.suite_object "a")
              (VDict TestProject.titanic_csv);
            load_batch_ev (TestProject.suite_object "b")
              (VDict TestProject.titanic_csv)]
           [TestProject.dataset_object "data/Titanic.csv";
            TestProject.dataset_object "data/Titanic.csv"]
           eq_refl).
Defined.

(* ================================================================== *)
(** ** [checkpoint run] on a checkpoint as a whole *)

Lemma bind_ret_l {A B} (a : A) (k : A -> M B) : bind (ret a) k = k a.
Proof. unfold bind, ret. destruct (k a). reflexivity. Qed.

Lemma bind_ext {A B} (m : M A) (k k' : A -> M B) :
  (forall a, k a = k' a) -> bind m k = bind m k'.
Proof.
  intros H. unfold bind. destruct m as [t [a|e]]; [|reflexivity].
  rewrite H. reflexivity.
Qed.

Lemma bind_assoc {A B C} (m : M A) (f : A -> M B) (g : B -> M C) :
  bind (bind m f) g = bind m (fun a => bind (f a) g).
Proof.
  unfold bind. destruct m as [t [a|e]]; [|reflexivity].
  destruct (f a) as [t1 [b|e1]]; [|reflexivity].
  destruct (g b) as [t2 r]. rewrite app_assoc. reflexivity.
Qed.


Lemma bind_raise {A B} (t : list event) (e : exn) (k : A -> M B) :
  bind (t, Raise e) k = (t, Raise e).
Proof. reflexivity. Qed.

Section WholeRun.

Variable exc_subclass : exc_class -> exc_class -> bool.
Variable load_data_context_with_error_handling : option string -> M DataContext.
Variable load_expectation_suite : DataContext -> value -> M value.
Variable toolkit_load_batch : DataContext -> value -> value -> M value.
Variable obj_getitem : value -> string -> result value.
Variable obj_iter : value -> result (list value).
Variable obj_truthy : value -> bool.

Local Abbreviation checkpoint_run' :=
  (checkpoint_run exc_subclass load_data_context_with_error_handling
     load_expectation_suite toolkit_load_batch obj_getitem obj_iter
     obj_truthy).
Local Abbreviation for_suite_names' :=
  (for_suite_names exc_subclass load_expectation_suite toolkit_load_batch
     obj_getitem).
Local Abbreviation for_batches' :=
  (for_batches exc_subclass load_expectation_suite toolkit_load_batch
     obj_getitem obj_iter).
Local Abbreviation run_operator_and_exit' :=
  (run_operator_and_exit obj_getitem obj_truthy).

(** The outer loop over a sequence in two parts is the loop over the first
    part followed by the loop over the second. *)
Lemma for_batches_app (context : DataContext) (pre post : list value) :
  forall acc,
    for_batches' context (pre ++ post) acc
    = bind (for_batches' context pre acc)
        (fun acc' => for_batches' context post acc').
Proof.
  induction pre as [|batch pre IH]; intros acc.
  - cbn [app for_batches]. rewrite bind_ret_l. reflexivity.
  - cbn [app for_batches]. rewrite bind_assoc. apply bind_ext. intros names.
    rewrite bind_assoc. apply bind_ext. intros r. apply IH.
Qed.

(** A descriptor without suite names, wherever it stands, leaves the loop
    as it is without it. *)
Lemma for_batches_skips_empty_anywhere (context : DataContext)
  (pre post : list value) (items : list (string * value)) (acc : list value) :
  Dict.lookup items "expectation_suite_names" = Some (VList []) ->
  for_batches' context (pre ++ VDict items :: post) acc
  = for_batches' context (pre ++ post) acc.
Proof.
  intros H. rewrite !for_batches_app. apply bind_ext. intros acc'.
  apply for_batches_skips_empty. exact H.
Qed.

(** [checkpoint_run], once the context and the checkpoint are there, is its
    loops followed by the rest of the function. *)
Lemma checkpoint_run_after_loading (checkpoint : string)
  (directory : option string) (context : DataContext)
  (checkpoint_config : value) (batches : list value) (t0 t1 : list event) :
  load_data_context_with_error_handling directory = (t0, Ok context) ->
  get_checkpoint context checkpoint = (t1, Ok checkpoint_config) ->
  (let* b := getitem obj_getitem checkpoint_config "batches" in
   iter obj_iter b)%result = Ok batches ->
  checkpoint_run' checkpoint directory
  = after (t0 ++ t1)
      (batches_to_validate <- for_batches' context batches [] ;;
       run_operator_and_exit' context "cli.checkpoint.list" checkpoint_config
         batches_to_validate)%cmd.
Proof.
  intros H0 H1 Hb. unfold checkpoint_run. run_step H0.
  unfold try_except. run_step H1. unfold lift at 1. run_step Hb.
  rewrite after_nil, after_app. reflexivity.
Qed.

(** The first load of a descriptor, when [toolkit.load_batch] raises. *)
Lemma for_batches_load_raises (context : DataContext) (batch : value)
  (post suite_names acc : list value) (suite_name suite batch_kwargs : value)
  (a1 a2 : list event) (e : exn) :
  (let* names := getitem obj_getitem batch "expectation_suite_names" in
   iter obj_iter names)%result = Ok (suite_name :: suite_names) ->
  load_expectation_suite context suite_name = (a1, Ok suite) ->
  getitem obj_getitem batch "batch_kwargs" = Ok batch_kwargs ->
  toolkit_load_batch context suite batch_kwargs = (a2, Raise e) ->
  for_batches' context (batch :: post) acc
  = ((a1 ++ load_batch_ev suite batch_kwargs :: a2)%list,
     if exn_matches exc_subclass e DataContextError
     then Raise (Exception TypeError
                   "_exit_with_failure_message() missing 2 required positional arguments: 'usage_event' and 'message'")
     else Raise e).
Proof.
  intros Hn Hs Hk Hl. cbn [for_batches]. unfold lift at 1. run_step Hn.
  rewrite after_nil. cbn [for_suite_names]. run_step Hs.
  unfold lift at 1. run_step Hk. rewrite after_nil.
  unfold load_batch_or_exit, try_except. unfold tell at 1.
  rewrite bind_after, Hl, after_pair. cbn [handle app].
  destruct (exn_matches exc_subclass e DataContextError); run_done.
Qed.


(** C1. A batch descriptor whose [expectation_suite_names] is empty is not
    refused by [checkpoint_run]: wherever it stands among the batches of the
    checkpoint, the run is the run of the checkpoint without it.  Nothing is
    printed about it, no failure is reported and the other batches are
    validated. *)
Theorem empty_suite_list_is_passed_over (checkpoint : string)
  (directory : option string) (context : DataContext)
  (checkpoint_config : value) (pre post : list value)
  (items : list (string * value)) (t0 t1 : list event) :
  load_data_context_with_error_handling directory = (t0, Ok context) ->
  get_checkpoint context checkpoint = (t1, Ok checkpoint_config) ->
  (let* b := getitem obj_getitem checkpoint_config "batches" in
   iter obj_iter b)%result = Ok (pre ++ VDict items :: post)%list ->
  Dict.lookup items "expectation_suite_names" = Some (VList []) ->
  checkpoint_run exc_subclass load_data_context_with_error_handling
    load_expectation_suite toolkit_load_batch obj_getitem obj_iter obj_truthy
    checkpoint directory
  = after (t0 ++ t1)
      (batches_to_validate <- for_batches' context (pre ++ post) [] ;;
       run_operator_and_exit' context "cli.checkpoint.list" checkpoint_config
         batches_to_validate)%cmd.
Proof.
  intros H0 H1 Hb Hempty.
  rewrite (checkpoint_run_after_loading _ _ _ _ _ _ _ H0 H1 Hb).
  rewrite (for_batches_skips_empty_anywhere _ _ _ _ _ Hempty). reflexivity.
Qed.

(** C2. When [toolkit.load_batch] raises an exception that
    [except DataContextError] catches, [checkpoint_run] prints nothing and
    reports nothing: the handler's call of [_exit_with_failure_message]
    raises [TypeError], and that ends the run right after the failed call.
    An exception the clause does not catch ends the run in the same place. *)
Theorem caught_load_failure_ends_in_TypeError (checkpoint : string)
  (directory : option string) (context : DataContext)
  (checkpoint_config batch suite_name suite batch_kwargs : value)
  (pre post suite_names acc : list value)
  (t0 t1 tp a1 a2 : list event) (e : exn) :
  load_data_context_with_error_handling directory = (t0, Ok context) ->
  get_checkpoint context checkpoint = (t1, Ok checkpoint_config) ->
  (let* b := getitem obj_getitem checkpoint_config "batches" in
   iter obj_iter b)%result = Ok (pre ++ batch :: post)%list ->
  for_batches' context pre [] = (tp, Ok acc) ->
  (let* names := getitem obj_getitem batch "expectation_suite_names" in
   iter obj_iter names)%result = Ok (suite_name :: suite_names) ->
  load_expectation_suite context suite_name = (a1, Ok suite) ->
  getitem obj_getitem batch "batch_kwargs" = Ok batch_kwargs ->
  toolkit_load_batch context suite batch_kwargs = (a2, Raise e) ->
  (exn_matches exc_subclass e DataContextError = true ->
   checkpoint_run exc_subclass load_data_context_with_error_handling
     load_expectation_suite toolkit_load_batch obj_getitem obj_iter obj_truthy
     checkpoint directory
   = ((t0 ++ t1 ++ tp ++ a1 ++ load_batch_ev suite batch_kwargs :: a2)%list,
      Raise (Exception TypeError
               "_exit_with_failure_message() missing 2 required positional arguments: 'usage_event' and 'message'")))
  /\ (exn_matches exc_subclass e DataContextError = false ->
      checkpoint_run exc_subclass load_data_context_with_error_handling
        load_expectation_suite toolkit_load_batch obj_getitem obj_iter
        obj_truthy checkpoint directory
      = ((t0 ++ t1 ++ tp ++ a1 ++ load_batch_ev suite batch_kwargs :: a2)%list,
         Raise e)).
Proof.
  intros H0 H1 Hb Hpre Hn Hs Hk Hl.
  rewrite (checkpoint_run_after_loading _ _ _ _ _ _ _ H0 H1 Hb).
  rewrite for_batches_app, Hpre, bind_after.
  rewrite (for_batches_load_raises _ _ post _ acc _ _ _ _ _ _ Hn Hs Hk Hl).
  split; intros Hm; rewrite Hm; rewrite after_pair, bind_raise;
    run_done.
Qed.


(** C6. A checkpoint with a batch descriptor that has no suite names exits
    with status 0 when the batches beside it load and validate: the
    descriptor is passed over and the run ends as a successful one. *)
Theorem empty_suite_list_beside_a_batch_exits_with_0 (checkpoint : string)
  (directory : option string) (context : DataContext)
  (checkpoint_config validation_operator_name results success : value)
  (pre post batches_to_validate : list value)
  (items : list (string * value)) (t0 t1 t2 t3 : list event) :
  load_data_context_with_error_handling directory = (t0, Ok context) ->
  get_checkpoint context checkpoint = (t1, Ok checkpoint_config) ->
  (let* b := getitem obj_getitem checkpoint_config "batches" in
   iter obj_iter b)%result = Ok (pre ++ VDict items :: post)%list ->
  Dict.lookup items "expectation_suite_names" = Some (VList []) ->
  for_batches' context (pre ++ post) [] = (t2, Ok batches_to_validate) ->
  getitem obj_getitem checkpoint_config "validation_operator_name"
  = Ok validation_operator_name ->
  run_validation_operator context validation_operator_name batches_to_validate
  = (t3, Ok results) ->
  getitem obj_getitem results "success" = Ok success ->
  truthy obj_truthy success = true ->
  checkpoint_run exc_subclass load_data_context_with_error_handling
    load_expectation_suite toolkit_load_batch obj_getitem obj_iter obj_truthy
    checkpoint directory
  = ((t0 ++ t1 ++ t2
        ++ run_validation_operator_ev validation_operator_name
             batches_to_validate
        :: t3
        ++ [cli_message_ev "Validation Succeeded!";
            usage_message_ev "cli.checkpoint.list" true])%list,
     Raise (SystemExit 0))
  /\ exit_status
       (snd (checkpoint_run exc_subclass load_data_context_with_error_handling
               load_expectation_suite toolkit_load_batch obj_getitem obj_iter
               obj_truthy checkpoint directory))
     = 0%Z.
Proof.
  intros H0 H1 Hb Hempty Hloop Hop Hrun Hsuccess Htrue.
  assert (E :
            checkpoint_run' checkpoint directory
            = ((t0 ++ t1 ++ t2
                  ++ run_validation_operator_ev validation_operator_name
                       batches_to_validate
                  :: t3
                  ++ [cli_message_ev "Validation Succeeded!";
                      usage_message_ev "cli.checkpoint.list" true])%list,
               Raise (SystemExit 0))).
  { rewrite (checkpoint_run_after_loading _ _ _ _ _ _ _ H0 H1 Hb).
    rewrite (for_batches_skips_empty_anywhere _ _ _ _ _ Hempty).
    rewrite Hloop, bind_after. unfold run_operator_and_exit.
    unfold lift at 1. run_step Hop.
    unfold tell at 1. rewrite bind_after, Hrun, after_pair, bind_after.
    unfold lift at 1. run_step Hsuccess. rewrite Htrue. cbn [negb].
    run_done. }
  split; [exact E|]. rewrite E. reflexivity.
Qed.

End WholeRun.

Lemma empty_suite_list_is_passed_over_witness :
  TestProject.run_checkpoint [("mixed", TestProject.mixed_checkpoint)]
    ["iceberg"] ["data/Titanic.csv"] ["action_list_operator"] true "mixed"
  = ([usage_message_ev "data_context.__init__" true;
      load_batch_ev (TestProject.suite_object "iceberg")
        (VDict TestProject.titanic_csv);
      run_validation_operator_ev (VStr "action_list_operator")
        [TestProject.dataset_object "data/Titanic.csv"];
      cli_message_ev "Validation Succeeded!";
      usage_message_ev "cli.checkpoint.list" true],
     Raise (SystemExit 0)).
Proof.
  exact (eq_trans
           (empty_suite_list_is_passed_over TestProject.exc_subclass
              (TestProject.load_data_context_with_error_handling
                 (TestProject.context
                    [("mixed", TestProject.mixed_checkpoint)]
                    ["action_list_operator"] true))
              (TestProject.load_expectation_suite ["iceberg"])
              (TestProject.load_batch ["data/Titanic.csv"])
              TestProject.obj_getitem TestProject.obj_iter
              TestProject.obj_truthy
              "mixed" (Some "great_expectations")
              (TestProject.context
                 [("mixed", TestProject.mixed_checkpoint)]
                 ["action_list_operator"] true)
              TestProject.mixed_checkpoint
              [] [TestProject.descriptor TestProject.titanic_csv ["iceberg"]]
              [("batch_kwargs", VDict TestProject.file_csv);
               ("expectation_suite_names", VList [])]
              [usage_message_ev "data_context.__init__" true] []
              eq_refl eq_refl eq_refl eq_refl)
           eq_refl).
Defined.

Lemma caught_load_failure_ends_in_TypeError_witness :
  TestProject.run_checkpoint [("no_path", TestProject.no_path_checkpoint)]
    ["bar"] ["data/Titanic.csv"] ["action_list_operator"] true "no_path"
  = ([usage_message_ev "data_context.__init__" true;
      load_batch_ev (TestProject.suite_object "bar")
        (VDict TestProject.no_path)],
     Raise (Exception TypeError
              "_exit_with_failure_message() missing 2 required positional arguments: 'usage_event' and 'message'")).
Proof.
  exact (proj1
           (caught_load_failure_ends_in_TypeError TestProject.exc_subclass
              (TestProject.load_data_context_with_error_handling
                 (TestProject.context
                    [("no_path", TestProject.no_path_checkpoint)]
                    ["action_list_operator"] true))
              (TestProject.load_expectation_suite ["bar"])
              (TestProject.load_batch ["data/Titanic.csv"])
              TestProject.obj_getitem TestProject.obj_iter
              TestProject.obj_truthy
              "no_path" (Some "great_expectations")
              (TestProject.context
                 [("no_path", TestProject.no_path_checkpoint)]
                 ["action_list_operator"] true)
              TestProject.no_path_checkpoint
              (TestProject.descriptor TestProject.no_path ["bar"])
              (VStr "bar") (TestProject.suite_object "bar")
              (VDict TestProject.no_path)
              [] [] [] []
              [usage_message_ev "data_context.__init__" true] [] [] [] []
              (Exception (OtherError "BatchKwargsError")
                 "Invalid batch_kwargs: path, s3, or dataset is required for a PandasDataset")
              eq_refl eq_refl eq_refl eq_refl eq_refl eq_refl eq_refl eq_refl)
           eq_refl).
Defined.


Lemma empty_suite_list_beside_a_batch_exits_with_0_witness :
  exit_status
    (snd (TestProject.run_checkpoint
            [("mixed", TestProject.mixed_checkpoint)]
            ["iceberg"] ["data/Titanic.csv"] ["action_list_operator"] true
            "mixed"))
  = 0%Z.
Proof.
  exact (proj2
           (empty_suite_list_beside_a_batch_exits_with_0
              TestProject.exc_subclass
              (TestProject.load_data_context_with_error_handling
                 (TestProject.context
                    [("mixed", TestProject.mixed_checkpoint)]
                    ["action_list_operator"] true))
              (TestProject.load_expectation_suite ["iceberg"])
              (TestProject.load_batch ["data/Titanic.csv"])
              TestProject.obj_getitem TestProject.obj_iter
              TestProject.obj_truthy
              "mixed" (Some "great_expectations")
              (TestProject.context
                 [("mixed", TestProject.mixed_checkpoint)]
                 ["action_list_operator"] true)
              TestProject.mixed_checkpoint
              (VStr "action_list_operator")
              (VDict [("success", VBool true)]) (VBool true)
              [] [TestProject.descriptor TestProject.titanic_csv ["iceberg"]]
              [TestProject.dataset_object "data/Titanic.csv"]
              [("batch_kwargs", VDict TestProject.file_csv);
               ("expectation_suite_names", VList [])]
              [usage_message_ev "data_context.__init__" true] []
              [load_batch_ev (TestProject.suite_object "iceberg")
                 (VDict TestProject.titanic_csv)]
              []
              eq_refl eq_refl eq_refl eq_refl eq_refl eq_refl eq_refl eq_refl
              eq_refl)).
Defined.

(** The two checkpoints of the tests, run as they are: with the batch
    without suites alone the operator is handed no batch and its exception
    leaves the command; with the file that is not there the exception of the
    load is not one the [except] clause catches.  Neither run prints a
    message or sends a failure event. *)
Example checkpoints_of_the_tests :
  TestProject.run_checkpoint
    [("bad_batch", TestProject.bad_batch_empty_suite_list)]
    [] [] ["action_list_operator"] true "bad_batch"
  = ([usage_message_ev "data_context.__init__" true;
      run_validation_operator_ev (VStr "action_list_operator") []],
     Raise (Exception DataContextError
              "No batches of data were passed in. These are required"))
  /\ TestProject.run_checkpoint
       [("bad_batch", TestProject.bad_batch)]
       ["bar"] [] ["action_list_operator"] true "bad_batch"
     = ([usage_message_ev "data_context.__init__" true;
         load_batch_ev (TestProject.suite_object "bar")
           (VDict TestProject.file_csv)],
        Raise (Exception (OtherError "FileNotFoundError")
                 "[Errno 2] No such file or directory: '/totally/not/a/file.csv'")).
Proof. split; reflexivity. Qed.
